(** * veryfi-python: the resource modules [documents.py] and [w9s.py]

    A shallow embedding of the two resource classes of the client library
    ([Documents], [W9s]) together with the fragment of Python they rely on:
    truthiness, [str()] formatting, insertion-ordered dictionaries,
    [os.path.basename], [base64.b64encode] and [bytes.decode("utf-8")].

    The transport ([client_base.Client.request]), the file system and the
    pydantic models of [veryfi.model] are not part of the embedded sources;
    they appear as an explicit [world] and as section variables. *)

From Stdlib Require Import ZArith NArith String Ascii List Bool Lia.
From Stdlib Require Import DecimalString DecimalPos DecimalZ.
From Stdlib.Strings Require Import Byte.
Import ListNotations.

Local Open Scope list_scope.
Local Open Scope string_scope.

(** ** Outcomes of Python evaluation *)

(** The exceptions that can surface in the embedded code.  [TypeError] and
    [UnicodeDecodeError] are raised by the builtins modelled below;
    [Raised name] stands for any exception coming from outside (the file
    system, the transport, model validation). *)
Inductive exn : Type :=
| TypeError
| UnicodeDecodeError
| Raised (name : string).

Inductive result (A : Type) : Type :=
| OK (a : A)
| Err (e : exn).

Arguments OK {A} a.
Arguments Err {A} e.

(** ** Python values

    The values that travel through the library: JSON-shaped data.  A [dict]
    keeps its insertion order, as Python's does, because [get_documents]
    serialises one in iteration order.  Floats are left out. *)
#[warnings="-register-all"] Inductive pyval : Type :=
| PNone
| PBool (b : bool)
| PInt (n : Z)
| PStr (s : string)
| PList (l : list pyval)
| PDict (d : list (string * pyval)).

Definition dict : Type := list (string * pyval).

(** [bool(v)] *)
Definition truthy (v : pyval) : bool :=
  match v with
  | PNone => false
  | PBool b => b
  | PInt n => negb (n =? 0)%Z
  | PStr s => negb (s =? "")
  | PList l => match l with [] => false | _ => true end
  | PDict d => match d with [] => false | _ => true end
  end.

(** [sep.join(parts)] *)
Fixpoint join (sep : string) (parts : list string) : string :=
  match parts with
  | [] => ""
  | [p] => p
  | p :: ps => p ++ sep ++ join sep ps
  end.

Section Formatting.

(** [repr] on a [str] (quoting and escaping).  It is only reached when a
    list or a dict is formatted, never for the scalars the library
    formats into endpoints. *)
Variable repr_str : string -> string.

(** [repr(v)] *)
Fixpoint py_repr (v : pyval) : string :=
  match v with
  | PNone => "None"
  | PBool true => "True"
  | PBool false => "False"
  | PInt n => NilZero.string_of_int (Z.to_int n)
  | PStr s => repr_str s
  | PList l => "[" ++ join ", " (map py_repr l) ++ "]"
  | PDict d =>
      "{" ++ join ", " (map (fun '(k, x) => repr_str k ++ ": " ++ py_repr x) d)
          ++ "}"
  end.

(** [str(v)], which is also what an f-string replacement field produces *)
Definition py_str (v : pyval) : string :=
  match v with
  | PStr s => s
  | _ => py_repr v
  end.

End Formatting.

(** ** Dictionaries *)

(** [d.get(k)] / membership *)
Fixpoint dict_get (d : dict) (k : string) : option pyval :=
  match d with
  | [] => None
  | (k', v) :: d' => if k =? k' then Some v else dict_get d' k
  end.

Definition dict_mem (d : dict) (k : string) : bool :=
  match dict_get d k with Some _ => true | None => false end.

(** [d[k] = v]: an existing key keeps its position, a new one goes last. *)
Fixpoint dict_set (d : dict) (k : string) (v : pyval) : dict :=
  match d with
  | [] => [(k, v)]
  | (k', v') :: d' => if k =? k' then (k', v) :: d' else (k', v') :: dict_set d' k v
  end.

(** [d.update(other)] *)
Definition dict_update (d other : dict) : dict :=
  fold_left (fun acc kv => dict_set acc (fst kv) (snd kv)) other d.

(** ** Strings *)

(** [s.startswith(p)] is [String.prefix p s]; [needle in hay] on strings. *)
Fixpoint str_contains (needle hay : string) : bool :=
  if String.prefix needle hay then true
  else match hay with
       | EmptyString => false
       | String _ hay' => str_contains needle hay'
       end.

(** [p.rfind("/")], with -1 when there is none *)
Fixpoint rfind_slash (p : string) : Z :=
  match p with
  | EmptyString => -1
  | String c p' =>
      let r := rfind_slash p' in
      if (0 <=? r)%Z then (r + 1)%Z
      else if Ascii.eqb c "/"%char then 0%Z else (-1)%Z
  end.

(** [p[i:]] for [0 <= i] *)
Fixpoint str_drop (i : nat) (p : string) : string :=
  match i, p with
  | O, _ => p
  | S _, EmptyString => EmptyString
  | S i', String _ p' => str_drop i' p'
  end.

(** [os.path.basename] (posixpath):
    [i = p.rfind(sep) + 1; return p[i:]] *)
Definition basename (p : string) : string :=
  let i := (rfind_slash p + 1)%Z in
  str_drop (Z.to_nat i) p.

(** ** Containment and subscription, as [get_documents] uses them *)

(** ["documents" == v] *)
Definition str_eq_val (s : string) (v : pyval) : bool :=
  match v with
  | PStr t => s =? t
  | _ => false
  end.

(** [s in v] for a string [s]: key membership on a dict, element membership
    on a list, substring test on a string, [TypeError] on the rest. *)
Definition py_in (s : string) (v : pyval) : result bool :=
  match v with
  | PDict d => OK (dict_mem d s)
  | PList l => OK (existsb (str_eq_val s) l)
  | PStr t => OK (str_contains s t)
  | PNone | PBool _ | PInt _ => Err TypeError
  end.

(** [v[s]] for a string [s]: defined on dicts only; lists and strings take
    integer indices and raise [TypeError], as do the unsubscriptable values.
    A missing key is a [KeyError]. *)
Definition py_getitem (v : pyval) (s : string) : result pyval :=
  match v with
  | PDict d => match dict_get d s with
               | Some x => OK x
               | None => Err (Raised "KeyError")
               end
  | _ => Err TypeError
  end.

(** ** [base64.b64encode] and [bytes.decode("utf-8")] *)

Definition b64_alphabet : list byte :=
  list_byte_of_string
    "ABCDEFGHIJKLMNOPQRSTUVWXYZabcdefghijklmnopqrstuvwxyz0123456789+/".

Definition b64_pad : byte := "="%byte.

(** The character of a 6-bit group. *)
Definition b64_char (n : N) : byte :=
  nth (N.to_nat (N.land n 63)) b64_alphabet b64_pad.

(** Standard base64 with padding: three bytes make a 24-bit group that is
    cut into four sextets; a final group of one or two bytes is padded. *)
Fixpoint b64encode (data : list byte) : list byte :=
  match data with
  | [] => []
  | [a] =>
      let n := N.shiftl (Byte.to_N a) 16 in
      [b64_char (N.shiftr n 18); b64_char (N.shiftr n 12); b64_pad; b64_pad]
  | [a; b] =>
      let n := N.lor (N.shiftl (Byte.to_N a) 16) (N.shiftl (Byte.to_N b) 8) in
      [b64_char (N.shiftr n 18); b64_char (N.shiftr n 12);
       b64_char (N.shiftr n 6); b64_pad]
  | a :: b :: c :: rest =>
      let n := N.lor (N.lor (N.shiftl (Byte.to_N a) 16) (N.shiftl (Byte.to_N b) 8))
                     (Byte.to_N c) in
      b64_char (N.shiftr n 18) :: b64_char (N.shiftr n 12)
        :: b64_char (N.shiftr n 6) :: b64_char n :: b64encode rest
  end.

(** Byte classes of UTF-8. *)
Definition in_range (lo hi : N) (b : byte) : bool :=
  ((lo <=? Byte.to_N b) && (Byte.to_N b <=? hi))%N.

Definition is_cont : byte -> bool := in_range 128 191.

(** Strict UTF-8 well-formedness (no overlong forms, no surrogates, nothing
    above U+10FFFF), the check [bytes.decode("utf-8")] performs. *)
Fixpoint utf8_valid (bs : list byte) : bool :=
  match bs with
  | [] => true
  | b0 :: r0 =>
      if in_range 0 127 b0 then utf8_valid r0
      else match r0 with
      | [] => false
      | b1 :: r1 =>
          if in_range 194 223 b0 then is_cont b1 && utf8_valid r1
          else match r1 with
          | [] => false
          | b2 :: r2 =>
              if in_range 224 224 b0 then
                in_range 160 191 b1 && is_cont b2 && utf8_valid r2
              else if in_range 237 237 b0 then
                in_range 128 159 b1 && is_cont b2 && utf8_valid r2
              else if in_range 225 239 b0 then
                is_cont b1 && is_cont b2 && utf8_valid r2
              else match r2 with
              | [] => false
              | b3 :: r3 =>
                  if in_range 240 240 b0 then
                    in_range 144 191 b1 && is_cont b2 && is_cont b3 && utf8_valid r3
                  else if in_range 241 243 b0 then
                    is_cont b1 && is_cont b2 && is_cont b3 && utf8_valid r3
                  else if in_range 244 244 b0 then
                    in_range 128 143 b1 && is_cont b2 && is_cont b3 && utf8_valid r3
                  else false
              end
          end
      end
  end.

(** [bs.decode("utf-8")].  A Python [str] is carried as its UTF-8 bytes, so
    decoding keeps the bytes and only checks them. *)
Definition decode_utf8 (bs : list byte) : result string :=
  if utf8_valid bs then OK (string_of_list_byte bs) else Err UnicodeDecodeError.

(** ** The client: transport and file system

    [client_base.Client.request(method, endpoint, arguments)] is the one
    primitive through which every resource method reaches the service.  A
    [world] fixes what the outside does: what opening a path gives, and what
    the transport answers (a deserialized value, or an exception) to a
    request, given the requests dispatched before it. *)

Record http_request : Type := mk_request {
  http_verb : string;
  endpoint : string;
  arguments : dict
}.

(** An opened binary file, given by what [read()] produces. *)
Definition file_obj : Type := result (list byte).

Record world : Type := mk_world {
  fs_open : string -> result file_obj;
  respond : list http_request -> http_request -> result pyval
}.

(** A computation of the library: it reads the world, appends to the log of
    dispatched requests, and returns or raises. *)
Definition client (A : Type) : Type :=
  world -> list http_request -> list http_request * result A.

Definition ret {A} (a : A) : client A := fun _ log => (log, OK a).

Definition raise {A} (e : exn) : client A := fun _ log => (log, Err e).

Definition bind {A B} (c : client A) (k : A -> client B) : client B :=
  fun w log =>
    match c w log with
    | (log', OK a) => k a w log'
    | (log', Err e) => (log', Err e)
    end.

Notation "x <- c ;; k" := (bind c (fun x => k))
  (at level 61, c at next level, right associativity).

Definition lift {A} (r : result A) : client A := fun _ log => (log, r).

(** [self.client.request(verb, endpoint_name, request_arguments)] *)
Definition request (verb endpoint_name : string) (request_arguments : dict)
  : client pyval :=
  fun w log =>
    let rq := mk_request verb endpoint_name request_arguments in
    ((log ++ [rq])%list, respond w log rq).

(** [open(file_path, "rb")] *)
Definition open_rb (file_path : string) : client file_obj :=
  fun w log => (log, fs_open w file_path).

(** [image_file.read()] *)
Definition read (image_file : file_obj) : client (list byte) := lift image_file.

(** Running a call from an empty log. *)
Definition run {A} (c : client A) (w : world) : list http_request * result A :=
  c w [].

Definition requests_of {A} (c : client A) (w : world) : list http_request :=
  fst (run c w).

Definition outcome_of {A} (c : client A) (w : world) : result A :=
  snd (run c w).

(** ** [Documents] and [W9s] *)

(** [Documents.CATEGORIES] *)
Definition CATEGORIES : list string :=
  [ "Advertising & Marketing";
    "Automotive";
    "Bank Charges & Fees";
    "Legal & Professional Services";
    "Insurance";
    "Meals & Entertainment";
    "Office Supplies & Software";
    "Taxes & Licenses";
    "Travel";
    "Rent & Lease";
    "Repairs & Maintenance";
    "Payroll";
    "Utilities";
    "Job Supplies";
    "Grocery" ].

Section Resources.

(** [repr] on [str], see [py_repr]. *)
Variable repr_str : string -> string.

(** The models of [veryfi.model]: [AddLineItem] built from the keyword
    expansion of the payload, then [.dict(exclude_none=True)], and the same
    for [UpdateLineItem].  A model validates the payload (and may raise)
    and gives back the fields to send. *)
Variable AddLineItem_dict : dict -> result dict.
Variable UpdateLineItem_dict : dict -> result dict.

(** The f-string replacement field [{x}] *)
Definition fmt (x : pyval) : string := py_str repr_str x.

(** [f"{k}={v}" for k, v in request_params.items()] *)
Definition query_items (request_params : dict) : list string :=
  map (fun '(k, v) => k ++ "=" ++ fmt v) request_params.

(** The [request_params] of [get_documents] after the seven guarded
    assignments, lines 56-70. *)
Definition get_documents_filtered
    (q external_id tag created_gt created_gte created_lt created_lte : pyval)
  : dict :=
  let request_params := [] in
  let request_params :=
    if truthy q then dict_set request_params "q" q else request_params in
  let request_params :=
    if truthy external_id then dict_set request_params "external_id" external_id
    else request_params in
  let request_params :=
    if truthy tag then dict_set request_params "tag" tag else request_params in
  let request_params :=
    if truthy created_gt then dict_set request_params "created__gt" created_gt
    else request_params in
  let request_params :=
    if truthy created_gte then dict_set request_params "created__gte" created_gte
    else request_params in
  let request_params :=
    if truthy created_lt then dict_set request_params "created__lt" created_lt
    else request_params in
  let request_params :=
    if truthy created_lte then dict_set request_params "created__lte" created_lte
    else request_params in
  request_params.

(** ... and after [request_params.update(kwargs)], line 71. *)
Definition get_documents_params
    (q external_id tag created_gt created_gte created_lt created_lte : pyval)
    (kwargs : dict) : dict :=
  dict_update
    (get_documents_filtered q external_id tag created_gt created_gte
                            created_lt created_lte)
    kwargs.

(** The [endpoint_name] of [get_documents], lines 54 and 72-73. *)
Definition get_documents_endpoint (request_params : dict) : string :=
  let endpoint_name := "/documents/" in
  if truthy (PDict request_params)
  then endpoint_name ++ "?" ++ join "&" (query_items request_params)
  else endpoint_name.

Definition get_documents
    (q external_id tag created_gt created_gte created_lt created_lte : pyval)
    (kwargs : dict) : client pyval :=
  let request_params :=
    get_documents_params q external_id tag created_gt created_gte
                         created_lt created_lte kwargs in
  let endpoint_name := get_documents_endpoint request_params in
  documents <- request "GET" endpoint_name [] ;;
  found <- lift (py_in "documents" documents) ;;
  if found : bool then lift (py_getitem documents "documents")
  else ret documents.

Definition get_document (document_id : pyval) : client pyval :=
  let endpoint_name := "/documents/" ++ fmt document_id ++ "/" in
  let request_arguments := [("id", document_id)] in
  document <- request "GET" endpoint_name request_arguments ;;
  ret document.

Definition process_document
    (file_path : string) (categories delete_after_processing : pyval)
    (kwargs : dict) : client pyval :=
  let endpoint_name := "/documents/" in
  let categories :=
    if negb (truthy categories) then PList (map PStr CATEGORIES) else categories in
  let file_name := basename file_path in
  image_file <- open_rb file_path ;;
  data <- read image_file ;;
  base64_encoded_string <- lift (decode_utf8 (b64encode data)) ;;
  let request_arguments :=
    [ ("file_name", PStr file_name);
      ("file_data", PStr base64_encoded_string);
      ("categories", categories);
      ("auto_delete", delete_after_processing) ] in
  let request_arguments := dict_update request_arguments kwargs in
  document <- request "POST" endpoint_name request_arguments ;;
  ret document.

Definition process_document_url
    (file_url categories delete_after_processing boost_mode external_id
     max_pages_to_process file_urls : pyval)
    (kwargs : dict) : client pyval :=
  let endpoint_name := "/documents/" in
  let request_arguments :=
    [ ("auto_delete", delete_after_processing);
      ("boost_mode", boost_mode);
      ("categories", categories);
      ("external_id", external_id);
      ("file_url", file_url);
      ("file_urls", file_urls);
      ("max_pages_to_process", max_pages_to_process) ] in
  let request_arguments := dict_update request_arguments kwargs in
  request "POST" endpoint_name request_arguments.

Definition delete_document (document_id : pyval) : client pyval :=
  let endpoint_name := "/documents/" ++ fmt document_id ++ "/" in
  let request_arguments := [("id", document_id)] in
  _ <- request "DELETE" endpoint_name request_arguments ;;
  ret PNone.

Definition update_document (document_id : pyval) (kwargs : dict) : client pyval :=
  let endpoint_name := "/documents/" ++ fmt document_id ++ "/" in
  request "PUT" endpoint_name kwargs.

Definition get_line_items (document_id : pyval) : client pyval :=
  let endpoint_name := "/documents/" ++ fmt document_id ++ "/line-items/" in
  let request_arguments := [] in
  line_items <- request "GET" endpoint_name request_arguments ;;
  ret line_items.

Definition get_line_item (document_id line_item_id : pyval) : client pyval :=
  let endpoint_name :=
    "/documents/" ++ fmt document_id ++ "/line-items/" ++ fmt line_item_id in
  let request_arguments := [] in
  line_items <- request "GET" endpoint_name request_arguments ;;
  ret line_items.

Definition add_line_item (document_id : pyval) (payload : dict) : client pyval :=
  let endpoint_name := "/documents/" ++ fmt document_id ++ "/line-items/" in
  request_arguments <- lift (AddLineItem_dict payload) ;;
  request "POST" endpoint_name request_arguments.

Definition update_line_item (document_id line_item_id : pyval) (payload : dict)
  : client pyval :=
  let endpoint_name :=
    "/documents/" ++ fmt document_id ++ "/line-items/" ++ fmt line_item_id in
  request_arguments <- lift (UpdateLineItem_dict payload) ;;
  request "PUT" endpoint_name request_arguments.

Definition delete_line_items (document_id : pyval) : client pyval :=
  let endpoint_name := "/documents/" ++ fmt document_id ++ "/line-items/" in
  let request_arguments := [] in
  _ <- request "DELETE" endpoint_name request_arguments ;;
  ret PNone.

Definition delete_line_item (document_id line_item_id : pyval) : client pyval :=
  let endpoint_name :=
    "/documents/" ++ fmt document_id ++ "/line-items/" ++ fmt line_item_id in
  let request_arguments := [] in
  _ <- request "DELETE" endpoint_name request_arguments ;;
  ret PNone.

Definition add_tag (document_id tag_name : pyval) : client pyval :=
  let endpoint_name := "/documents/" ++ fmt document_id ++ "/tags/" in
  let request_arguments := [("name", tag_name)] in
  request "PUT" endpoint_name request_arguments.

Definition replace_tags (document_id tags : pyval) : client pyval :=
  let endpoint_name := "/documents/" ++ fmt document_id ++ "/" in
  let request_arguments := [("tags", tags)] in
  request "PUT" endpoint_name request_arguments.

Definition add_tags (document_id tags : pyval) : client pyval :=
  let endpoint_name := "/documents/" ++ fmt document_id ++ "/tags/" in
  let request_arguments := [("tags", tags)] in
  request "POST" endpoint_name request_arguments.

(** [W9s.process_w9_document_url]; [file_name] is [None] when not given. *)
Definition process_w9_document_url
    (file_url : string) (file_name : option string) (kwargs : dict)
  : client pyval :=
  let file_name :=
    match file_name with
    | None => basename file_url
    | Some name => name
    end in
  let endpoint_name := "/w9s/" in
  let request_arguments :=
    [ ("file_name", PStr file_name);
      ("file_url", PStr file_url) ] in
  let request_arguments := dict_update request_arguments kwargs in
  request "POST" endpoint_name request_arguments.

(** [W9s.process_w9_document] *)
Definition process_w9_document
    (file_path : string) (file_name : option string) (kwargs : dict)
  : client pyval :=
  let endpoint_name := "/w9s/" in
  let file_name :=
    match file_name with
    | None => basename file_path
    | Some name => name
    end in
  image_file <- open_rb file_path ;;
  data <- read image_file ;;
  base64_encoded_string <- lift (decode_utf8 (b64encode data)) ;;
  let request_arguments :=
    [ ("file_name", PStr file_name);
      ("file_data", PStr base64_encoded_string) ] in
  let request_arguments := dict_update request_arguments kwargs in
  document <- request "POST" endpoint_name request_arguments ;;
  ret document.

End Resources.

(** ** The public surface as one type

    A [call] is one invocation of a public method of [Documents] or [W9s];
    [invoke] runs it. *)
Inductive call : Type :=
| call_get_documents
    (q external_id tag created_gt created_gte created_lt created_lte : pyval)
    (kwargs : dict)
| call_get_document (document_id : pyval)
| call_process_document
    (file_path : string) (categories delete_after_processing : pyval) (kwargs : dict)
| call_process_document_url
    (file_url categories delete_after_processing boost_mode external_id
     max_pages_to_process file_urls : pyval) (kwargs : dict)
| call_delete_document (document_id : pyval)
| call_update_document (document_id : pyval) (kwargs : dict)
| call_get_line_items (document_id : pyval)
| call_get_line_item (document_id line_item_id : pyval)
| call_add_line_item (document_id : pyval) (payload : dict)
| call_update_line_item (document_id line_item_id : pyval) (payload : dict)
| call_delete_line_items (document_id : pyval)
| call_delete_line_item (document_id line_item_id : pyval)
| call_add_tag (document_id tag_name : pyval)
| call_replace_tags (document_id tags : pyval)
| call_add_tags (document_id tags : pyval)
| call_process_w9_document_url
    (file_url : string) (file_name : option string) (kwargs : dict)
| call_process_w9_document
    (file_path : string) (file_name : option string) (kwargs : dict).

Section Invocation.

Variable repr_str : string -> string.
Variable AddLineItem_dict : dict -> result dict.
Variable UpdateLineItem_dict : dict -> result dict.

Definition invoke (c : call) : client pyval :=
  match c with
  | call_get_documents q external_id tag gt gte lt lte kwargs =>
      get_documents repr_str q external_id tag gt gte lt lte kwargs
  | call_get_document document_id => get_document repr_str document_id
  | call_process_document file_path categories dap kwargs =>
      process_document file_path categories dap kwargs
  | call_process_document_url file_url categories dap boost_mode external_id
                              max_pages file_urls kwargs =>
      process_document_url file_url categories dap boost_mode external_id
                           max_pages file_urls kwargs
  | call_delete_document document_id => delete_document repr_str document_id
  | call_update_document document_id kwargs =>
      update_document repr_str document_id kwargs
  | call_get_line_items document_id => get_line_items repr_str document_id
  | call_get_line_item document_id line_item_id =>
      get_line_item repr_str document_id line_item_id
  | call_add_line_item document_id payload =>
      add_line_item repr_str AddLineItem_dict document_id payload
  | call_update_line_item document_id line_item_id payload =>
      update_line_item repr_str UpdateLineItem_dict document_id line_item_id payload
  | call_delete_line_items document_id => delete_line_items repr_str document_id
  | call_delete_line_item document_id line_item_id =>
      delete_line_item repr_str document_id line_item_id
  | call_add_tag document_id tag_name => add_tag repr_str document_id tag_name
  | call_replace_tags document_id tags => replace_tags repr_str document_id tags
  | call_add_tags document_id tags => add_tags repr_str document_id tags
  | call_process_w9_document_url file_url file_name kwargs =>
      process_w9_document_url file_url file_name kwargs
  | call_process_w9_document file_path file_name kwargs =>
      process_w9_document file_path file_name kwargs
  end.

(** What reading [file_path] in binary mode gives: the bytes, or the
    exception of [open] or of [read]. *)
Definition read_file (w : world) (file_path : string) : result (list byte) :=
  match fs_open w file_path with
  | OK image_file => image_file
  | Err e => Err e
  end.

Definition is_err {A} (r : result A) : bool :=
  match r with OK _ => false | Err _ => true end.

(** The calls that raise before they reach [client.request]: the two
    uploads when the file cannot be opened or read, and the two line-item
    writers when the model rejects the payload. *)
Definition raises_before_dispatch (c : call) (w : world) : bool :=
  match c with
  | call_process_document file_path _ _ _ => is_err (read_file w file_path)
  | call_process_w9_document file_path _ _ => is_err (read_file w file_path)
  | call_add_line_item _ payload => is_err (AddLineItem_dict payload)
  | call_update_line_item _ _ payload => is_err (UpdateLineItem_dict payload)
  | _ => false
  end.

(** The methods whose body ends in [return <the response>]. *)
Definition returns_response (c : call) : bool :=
  match c with
  | call_get_documents _ _ _ _ _ _ _ _ => false
  | call_delete_document _ => false
  | call_delete_line_items _ => false
  | call_delete_line_item _ _ => false
  | _ => true
  end.

(** The methods with no [return] statement. *)
Definition returns_nothing (c : call) : bool :=
  match c with
  | call_delete_document _ => true
  | call_delete_line_items _ => true
  | call_delete_line_item _ _ => true
  | _ => false
  end.

End Invocation.

(** ** Auxiliary notions used in the statements *)

(** ["/" in p] *)
Fixpoint has_slash (p : string) : bool :=
  match p with
  | EmptyString => false
  | String c p' => Ascii.eqb c "/" || has_slash p'
  end.

Definition is_ascii : byte -> bool := in_range 0 127.

(** The mapping [process_document] builds before merging [kwargs]. *)
Definition process_document_fields
    (file_path : string) (categories delete_after_processing : pyval)
    (data : list byte) : dict :=
  [ ("file_name", PStr (basename file_path));
    ("file_data", PStr (string_of_list_byte (b64encode data)));
    ("categories",
      if truthy categories then categories else PList (map PStr CATEGORIES));
    ("auto_delete", delete_after_processing) ].

(** The mapping [process_w9_document] builds before merging [kwargs]. *)
Definition process_w9_document_fields
    (file_path : string) (file_name : option string) (data : list byte) : dict :=
  [ ("file_name",
      PStr match file_name with None => basename file_path | Some name => name end);
    ("file_data", PStr (string_of_list_byte (b64encode data))) ].

(** The keyword arguments of [get_documents] beside the key each is stored
    under (lines 57-70): [created_gt] goes under "created__gt", and so on. *)
Definition get_documents_wire
    (q external_id tag created_gt created_gte created_lt created_lte : pyval)
  : dict :=
  [ ("q", q);
    ("external_id", external_id);
    ("tag", tag);
    ("created__gt", created_gt);
    ("created__gte", created_gte);
    ("created__lt", created_lt);
    ("created__lte", created_lte) ].

(** ** A concrete world, to run the library on *)

(** A [repr] that is right for strings without quotes or escapes. *)
Definition sample_repr (s : string) : string := "'" ++ s ++ "'".

(** A line-item model that requires a "description". *)
Definition sample_model (payload : dict) : result dict :=
  if dict_mem payload "description" then OK payload
  else Err (Raised "ValidationError").

Definition receipt : list byte := list_byte_of_string "hi".

(** One readable file, one that opens but cannot be read, nothing else. *)
Definition sample_fs (file_path : string) : result file_obj :=
  if file_path =? "/tmp/receipt.jpg" then OK (OK receipt)
  else if file_path =? "/mnt/stale/receipt.jpg" then OK (Err (Raised "OSError"))
  else Err (Raised "FileNotFoundError").

(** The world in which the transport always answers [r]. *)
Definition answering (r : result pyval) : world :=
  mk_world sample_fs (fun _ _ => r).

Definition sample_invoke : call -> client pyval :=
  invoke sample_repr sample_model sample_model.

(** ** More notions used in the statements *)

(** [list(d.keys())] *)
Definition keys (d : dict) : list string := map fst d.

(** The exception a call raises before it reaches [client.request], if any:
    the one of [open] or [read] for the two uploads, the one of the model
    for the two line-item writers. *)
Definition raised_before_dispatch
    (AddLineItem_dict UpdateLineItem_dict : dict -> result dict)
    (c : call) (w : world) : option exn :=
  let error_of {A} (r : result A) :=
    match r with OK _ => None | Err e => Some e end in
  match c with
  | call_process_document file_path _ _ _ => error_of (read_file w file_path)
  | call_process_w9_document file_path _ _ => error_of (read_file w file_path)
  | call_add_line_item _ payload => error_of (AddLineItem_dict payload)
  | call_update_line_item _ _ payload => error_of (UpdateLineItem_dict payload)
  | _ => None
  end.

(** [isinstance(v, dict)] *)
Definition is_dict (v : pyval) : bool :=
  match v with PDict _ => true | _ => false end.

(** The keys the four mapping-building methods write before [kwargs]. *)
Definition process_document_keys : list string :=
  ["file_name"; "file_data"; "categories"; "auto_delete"].

Definition process_document_url_keys : list string :=
  ["auto_delete"; "boost_mode"; "categories"; "external_id"; "file_url";
   "file_urls"; "max_pages_to_process"].

Definition process_w9_document_url_keys : list string := ["file_name"; "file_url"].

Definition process_w9_document_keys : list string := ["file_name"; "file_data"].

(** The keys of [kwargs] that are not among [named], in their order. *)
Definition new_keys (named : list string) (kwargs : dict) : list string :=
  filter (fun k => negb (existsb (String.eqb k) named)) (keys kwargs).

(** The shapes a run of a public method can have: it raised before the
    dispatch; it dispatched once and passed the outcome on; it dispatched
    once and dropped the answer; it dispatched once and unwrapped the
    answer ([get_documents]). *)
Inductive run_shape
    (repr_str : string -> string)
    (AddLineItem_dict UpdateLineItem_dict : dict -> result dict)
    (c : call) (w : world) : Prop :=
| shape_early (e : exn) :
    raised_before_dispatch AddLineItem_dict UpdateLineItem_dict c w = Some e ->
    run (invoke repr_str AddLineItem_dict UpdateLineItem_dict c) w = ([], Err e) ->
    run_shape repr_str AddLineItem_dict UpdateLineItem_dict c w
| shape_passed (rq : http_request) :
    raised_before_dispatch AddLineItem_dict UpdateLineItem_dict c w = None ->
    returns_response c = true ->
    run (invoke repr_str AddLineItem_dict UpdateLineItem_dict c) w
    = ([rq], respond w [] rq) ->
    run_shape repr_str AddLineItem_dict UpdateLineItem_dict c w
| shape_dropped (rq : http_request) :
    raised_before_dispatch AddLineItem_dict UpdateLineItem_dict c w = None ->
    returns_nothing c = true ->
    run (invoke repr_str AddLineItem_dict UpdateLineItem_dict c) w
    = ([rq], match respond w [] rq with OK _ => OK PNone | Err e => Err e end) ->
    run_shape repr_str AddLineItem_dict UpdateLineItem_dict c w
| shape_unwrapped (rq : http_request) :
    raised_before_dispatch AddLineItem_dict UpdateLineItem_dict c w = None ->
    returns_response c = false ->
    returns_nothing c = false ->
    run (invoke repr_str AddLineItem_dict UpdateLineItem_dict c) w
    = ([rq],
       match respond w [] rq with
       | Err e => Err e
       | OK r =>
           match py_in "documents" r with
           | Err e => Err e
           | OK true => py_getitem r "documents"
           | OK false => OK r
           end
       end) ->
    run_shape repr_str AddLineItem_dict UpdateLineItem_dict c w.

(** The position of a byte in a list, its length when absent; on the base64
    alphabet this reads a character back as its sextet. *)
Fixpoint index_of (x : byte) (l : list byte) : nat :=
  match l with
  | [] => O
  | y :: l' => if Byte.eqb x y then O else S (index_of x l')
  end.

Definition b64_index (x : byte) : N := N.of_nat (index_of x b64_alphabet).

(** The 24-bit group [b64encode] forms from three bytes. *)
Definition group (a b c : byte) : N :=
  N.lor (N.lor (N.shiftl (Byte.to_N a) 16) (N.shiftl (Byte.to_N b) 8)) (Byte.to_N c).

(** The two methods that open a file. *)
Definition reads_file (c : call) : bool :=
  match c with
  | call_process_document _ _ _ _ => true
  | call_process_w9_document _ _ _ => true
  | _ => false
  end.


(** * Properties *)

(** ** Dictionaries *)

Lemma dict_get_set_same (d : dict) k v : dict_get (dict_set d k v) k = Some v.
Proof.
  induction d as [|[k' v'] d IH]; simpl.
  - now rewrite String.eqb_refl.
  - destruct (String.eqb_spec k k') as [->|Hne]; simpl.
    + now rewrite String.eqb_refl.
    + destruct (String.eqb_spec k k'); [contradiction | exact IH].
Qed.

Lemma dict_get_set_other (d : dict) k k' v :
  k <> k' -> dict_get (dict_set d k' v) k = dict_get d k.
Proof.
  intros Hne. induction d as [|[k0 v0] d IH]; simpl.
  - destruct (String.eqb_spec k k'); [contradiction | reflexivity].
  - destruct (String.eqb_spec k' k0) as [->|Hne0]; simpl.
    + destruct (String.eqb_spec k k0); [contradiction | reflexivity].
    + destruct (String.eqb_spec k k0); [reflexivity | exact IH].
Qed.

Lemma dict_mem_cons k k0 v0 (d : dict) :
  dict_mem ((k0, v0) :: d) k = false -> k <> k0 /\ dict_mem d k = false.
Proof.
  unfold dict_mem; simpl. destruct (String.eqb_spec k k0); [discriminate | auto].
Qed.

(** Keys that [other] does not mention keep their value across
    [d.update(other)]. *)
Lemma dict_get_update_absent (other d : dict) k :
  dict_mem other k = false -> dict_get (dict_update d other) k = dict_get d k.
Proof.
  unfold dict_update. revert d.
  induction other as [|[k0 v0] other IH]; intros d Hk; simpl.
  - reflexivity.
  - apply dict_mem_cons in Hk as [Hne Hk].
    rewrite (IH _ Hk). now apply dict_get_set_other.
Qed.



Lemma dict_get_In (d : dict) k v : dict_get d k = Some v -> In (k, v) d.
Proof.
  induction d as [|[k0 v0] d IH]; simpl; [discriminate|].
  destruct (String.eqb_spec k k0) as [->|Hne].
  - intros [= ->]. now left.
  - intros H. right. now apply IH.
Qed.

(** ** Base64 output is ASCII, so decoding it never fails *)

Lemma nth_forallb {A} (p : A -> bool) (l : list A) (d : A) (i : nat) :
  forallb p l = true -> p d = true -> p (nth i l d) = true.
Proof.
  revert i. induction l as [|x l IH]; intros [|i] Hl Hd; simpl in *; auto;
    apply andb_prop in Hl as [Hx Hl]; auto.
Qed.

Lemma b64_char_ascii (n : N) : is_ascii (b64_char n) = true.
Proof. unfold b64_char. apply nth_forallb; reflexivity. Qed.

(** Induction that follows the three-byte groups of [b64encode]. *)
Lemma list_ind3 {A} (P : list A -> Prop) :
  P [] ->
  (forall a, P [a]) ->
  (forall a b, P [a; b]) ->
  (forall a b c rest, P rest -> P (a :: b :: c :: rest)) ->
  forall l, P l.
Proof.
  intros H0 H1 H2 H3.
  fix IH 1.
  intros [|a [|b [|c rest]]]; [exact H0 | apply H1 | apply H2 | apply H3, IH].
Qed.

Lemma b64encode_ascii (data : list byte) :
  forallb is_ascii (b64encode data) = true.
Proof.
  induction data as [|a|a b|a b c rest IH] using list_ind3.
  - reflexivity.
  - cbn [b64encode forallb]. now rewrite !b64_char_ascii.
  - cbn [b64encode forallb]. now rewrite !b64_char_ascii.
  - cbn [b64encode forallb]. now rewrite !b64_char_ascii, IH.
Qed.

(** The length of the encoding: four characters per group of three bytes. *)
Lemma b64encode_length (data : list byte) :
  length (b64encode data) = 4 * ((length data + 2) / 3).
Proof.
  induction data as [|a|a b|a b c rest IH] using list_ind3; try reflexivity.
  cbn [b64encode length]. rewrite IH.
  replace (S (S (S (length rest))) + 2) with (length rest + 2 + 1 * 3) by lia.
  rewrite Nat.div_add by lia. lia.
Qed.

Lemma utf8_valid_ascii (bs : list byte) :
  forallb is_ascii bs = true -> utf8_valid bs = true.
Proof.
  induction bs as [|b bs IH]; [reflexivity|].
  cbn [forallb]. intros H. apply andb_prop in H as [Hb Hbs].
  unfold is_ascii in Hb. cbn [utf8_valid]. rewrite Hb. auto.
Qed.

Lemma decode_b64encode (data : list byte) :
  decode_utf8 (b64encode data) = OK (string_of_list_byte (b64encode data)).
Proof.
  unfold decode_utf8. now rewrite (utf8_valid_ascii _ (b64encode_ascii data)).
Qed.

(** ** [basename] *)


Lemma rfind_slash_none (p : string) :
  has_slash p = false -> rfind_slash p = (-1)%Z.
Proof.
  induction p as [|c p IH]; simpl; [reflexivity|].
  intros H. apply orb_false_elim in H as [Hc Hp].
  rewrite (IH Hp), Hc. reflexivity.
Qed.

(** A path without a separator is its own basename. *)
Lemma basename_no_slash (p : string) : has_slash p = false -> basename p = p.
Proof.
  intros H. unfold basename. now rewrite (rfind_slash_none p H).
Qed.


(** ** The uploads: [process_document] and [process_w9_document] *)

Lemma process_document_run file_path categories dap kwargs w data :
  fs_open w file_path = OK (OK data) ->
  let rq := mk_request "POST" "/documents/"
              (dict_update (process_document_fields file_path categories dap data)
                           kwargs) in
  run (process_document file_path categories dap kwargs) w = ([rq], respond w [] rq).
Proof.
  intros Hfile. unfold run, process_document, bind, open_rb, read, lift.
  rewrite Hfile, decode_b64encode.
  unfold request, ret, process_document_fields. cbn [app].
  destruct (truthy categories); cbn [negb];
    now destruct (respond w [] _).
Qed.

Lemma process_w9_document_run file_path file_name kwargs w data :
  fs_open w file_path = OK (OK data) ->
  let rq := mk_request "POST" "/w9s/"
              (dict_update (process_w9_document_fields file_path file_name data)
                           kwargs) in
  run (process_w9_document file_path file_name kwargs) w = ([rq], respond w [] rq).
Proof.
  intros Hfile. unfold run, process_w9_document, bind, open_rb, read, lift.
  rewrite Hfile, decode_b64encode.
  unfold request, ret, process_w9_document_fields. cbn [app].
  now destruct (respond w [] _).
Qed.

Lemma process_document_unreadable file_path categories dap kwargs w e :
  read_file w file_path = Err e ->
  run (process_document file_path categories dap kwargs) w = ([], Err e).
Proof.
  unfold read_file, run, process_document, bind, open_rb, read, lift.
  destruct (fs_open w file_path) as [[data|e']|e']; intros [= ->]; reflexivity.
Qed.

Lemma process_w9_document_unreadable file_path file_name kwargs w e :
  read_file w file_path = Err e ->
  run (process_w9_document file_path file_name kwargs) w = ([], Err e).
Proof.
  unfold read_file, run, process_w9_document, bind, open_rb, read, lift.
  destruct (fs_open w file_path) as [[data|e']|e']; intros [= ->]; reflexivity.
Qed.

(** C10.  If opening the file at [file_path] fails, or reading it does, then
    [process_document] and [process_w9_document] raise that exception and the
    log of dispatched requests stays empty: [client.request] is never
    invoked. *)
Theorem upload_file_failure_sends_nothing
    file_path categories dap file_name kwargs w e :
  fs_open w file_path = Err e \/ fs_open w file_path = OK (Err e) ->
  run (process_document file_path categories dap kwargs) w = ([], Err e) /\
  run (process_w9_document file_path file_name kwargs) w = ([], Err e).
Proof.
  intros Hfail.
  assert (read_file w file_path = Err e) as Hread
    by (unfold read_file; destruct Hfail as [-> | ->]; reflexivity).
  split.
  - now apply process_document_unreadable.
  - now apply process_w9_document_unreadable.
Qed.

(** C8.  When the file is readable and [categories] is [None] or the empty
    list, the request of [process_document] carries under "categories" the
    default list [Documents.CATEGORIES], which has 15 elements; a non-empty
    list is sent as it was given.  ([categories] is a named parameter, so
    Python never binds a "categories" key into [kwargs].) *)
Theorem process_document_categories file_path categories dap kwargs w data :
  fs_open w file_path = OK (OK data) ->
  dict_mem kwargs "categories" = false ->
  exists rq,
    requests_of (process_document file_path categories dap kwargs) w = [rq] /\
    length CATEGORIES = 15 /\
    (categories = PNone \/ categories = PList [] ->
       dict_get (arguments rq) "categories" = Some (PList (map PStr CATEGORIES))) /\
    (forall x l, categories = PList (x :: l) ->
       dict_get (arguments rq) "categories" = Some (PList (x :: l))).
Proof.
  intros Hfile Hkw. eexists. unfold requests_of.
  rewrite (process_document_run _ categories dap kwargs _ _ Hfile). cbn [fst].
  split; [reflexivity|]. split; [reflexivity|].
  cbn [arguments]. rewrite (dict_get_update_absent _ _ _ Hkw).
  split.
  - intros [-> | ->]; reflexivity.
  - intros x l ->. reflexivity.
Qed.

(** C5 (as amended).  For a path whose contents are the bytes [data],
    [process_document] and [process_w9_document] dispatch one POST.  Its
    mapping has "file_data" equal to the base64 encoding of [data] (whose
    UTF-8 decoding always succeeds) unless [kwargs] carries a "file_data" of
    its own, and "file_name" equal to the basename of the path unless
    [kwargs] carries a "file_name" (for [process_w9_document]: unless an
    explicit [file_name] is given, which is then sent). *)
Theorem upload_sends_base64_of_file
    file_path categories dap file_name kwargs w data :
  fs_open w file_path = OK (OK data) ->
  let encoded := string_of_list_byte (b64encode data) in
  decode_utf8 (b64encode data) = OK encoded /\
  (exists args,
      requests_of (process_document file_path categories dap kwargs) w
        = [mk_request "POST" "/documents/" args] /\
      (dict_mem kwargs "file_data" = false ->
         dict_get args "file_data" = Some (PStr encoded)) /\
      (dict_mem kwargs "file_name" = false ->
         dict_get args "file_name" = Some (PStr (basename file_path)))) /\
  (exists args,
      requests_of (process_w9_document file_path file_name kwargs) w
        = [mk_request "POST" "/w9s/" args] /\
      (dict_mem kwargs "file_data" = false ->
         dict_get args "file_data" = Some (PStr encoded)) /\
      (dict_mem kwargs "file_name" = false ->
         dict_get args "file_name"
           = Some (PStr match file_name with
                        | None => basename file_path
                        | Some name => name
                        end))).
Proof.
  intros Hfile encoded. split; [apply decode_b64encode|]. split.
  - eexists. unfold requests_of.
    rewrite (process_document_run _ categories dap kwargs _ _ Hfile). cbn [fst].
    split; [reflexivity|].
    split; intros Hkw; now rewrite (dict_get_update_absent _ _ _ Hkw).
  - eexists. unfold requests_of.
    rewrite (process_w9_document_run _ file_name kwargs _ _ Hfile). cbn [fst].
    split; [reflexivity|].
    split; intros Hkw; now rewrite (dict_get_update_absent _ _ _ Hkw).
Qed.

(** ** The W9s endpoint family *)

Lemma process_w9_document_url_run file_url file_name kwargs w :
  let rq := mk_request "POST" "/w9s/"
              (dict_update
                 [ ("file_name",
                     PStr match file_name with
                          | None => basename file_url
                          | Some name => name
                          end);
                   ("file_url", PStr file_url) ]
                 kwargs) in
  run (process_w9_document_url file_url file_name kwargs) w = ([rq], respond w [] rq).
Proof. reflexivity. Qed.

(** C7.  [process_w9_document_url] dispatches a POST to "/w9s/", and with no
    [file_name] given the mapping's "file_name" is the basename of
    [file_url]; every request [process_w9_document] dispatches is a POST to
    "/w9s/", and it dispatches one whenever the file is readable.
    ([file_name] is a named parameter of both methods, so Python never binds
    a "file_name" key into [kwargs].) *)
Theorem w9s_post_to_w9s_endpoint file_url file_path file_name kwargs w :
  dict_mem kwargs "file_name" = false ->
  (exists args,
      requests_of (process_w9_document_url file_url file_name kwargs) w
        = [mk_request "POST" "/w9s/" args] /\
      (file_name = None ->
         dict_get args "file_name" = Some (PStr (basename file_url)))) /\
  (forall rq,
      In rq (requests_of (process_w9_document file_path file_name kwargs) w) ->
      http_verb rq = "POST" /\ endpoint rq = "/w9s/") /\
  (forall data, fs_open w file_path = OK (OK data) ->
      exists args,
        requests_of (process_w9_document file_path file_name kwargs) w
          = [mk_request "POST" "/w9s/" args]).
Proof.
  intros Hkw. split; [|split].
  - eexists. unfold requests_of. rewrite process_w9_document_url_run. cbn [fst].
    split; [reflexivity|].
    intros ->. now rewrite (dict_get_update_absent _ _ _ Hkw).
  - intros rq. unfold requests_of.
    destruct (read_file w file_path) as [data|e] eqn:Hread.
    + assert (fs_open w file_path = OK (OK data)) as Hfile
        by (unfold read_file in Hread; destruct (fs_open w file_path);
            [now subst | discriminate]).
      rewrite (process_w9_document_run _ file_name kwargs _ _ Hfile). cbn [fst].
      intros [<- | []]. split; reflexivity.
    + rewrite (process_w9_document_unreadable _ file_name kwargs _ _ Hread).
      intros [].
  - intros data Hfile. eexists. unfold requests_of.
    now rewrite (process_w9_document_run _ file_name kwargs _ _ Hfile).
Qed.

(** ** [get_documents]: wire names and filtering *)

(** The guarded assignments keep exactly the truthy arguments, each under
    its wire name. *)
Lemma get_documents_filtered_get q e t gt gte lt lte k :
  dict_get (get_documents_filtered q e t gt gte lt lte) k =
  match dict_get (get_documents_wire q e t gt gte lt lte) k with
  | Some v => if truthy v then Some v else None
  | None => None
  end.
Proof.
  unfold get_documents_filtered, get_documents_wire.
  destruct (truthy q) eqn:Hq, (truthy e) eqn:He, (truthy t) eqn:Ht,
    (truthy gt) eqn:Hgt, (truthy gte) eqn:Hgte, (truthy lt) eqn:Hlt,
    (truthy lte) eqn:Hlte;
    cbn;
    repeat match goal with
           | |- context [String.eqb ?x ?s] =>
               is_var x; destruct (String.eqb_spec x s) as [->|_]
           end;
    cbn; rewrite ?Hq, ?He, ?Ht, ?Hgt, ?Hgte, ?Hlt, ?Hlte; reflexivity.
Qed.

Section GetDocuments.

Variable repr_str : string -> string.

Lemma get_documents_run q e t gt gte lt lte kwargs w :
  let rq := mk_request "GET"
              (get_documents_endpoint repr_str
                 (get_documents_params q e t gt gte lt lte kwargs)) [] in
  run (get_documents repr_str q e t gt gte lt lte kwargs) w =
  ([rq],
   match respond w [] rq with
   | Err ex => Err ex
   | OK r =>
       match py_in "documents" r with
       | Err ex => Err ex
       | OK true => py_getitem r "documents"
       | OK false => OK r
       end
   end).
Proof.
  cbv zeta. unfold run, get_documents, bind, request, lift, ret. cbn [app].
  destruct (respond w [] _) as [r|ex]; [|reflexivity].
  destruct (py_in "documents" r) as [[|]|ex]; reflexivity.
Qed.

Lemma query_item_sent (params : dict) k v :
  dict_get params k = Some v ->
  In (k ++ "=" ++ fmt repr_str v) (query_items repr_str params) /\
  get_documents_endpoint repr_str params
    = "/documents/?" ++ join "&" (query_items repr_str params).
Proof.
  intros Hget. split.
  - unfold query_items.
    apply (in_map (fun '(k, v) => k ++ "=" ++ fmt repr_str v) _ (k, v)).
    now apply dict_get_In.
  - unfold get_documents_endpoint. destruct params; [discriminate | reflexivity].
Qed.

(** C4 (as amended).  An argument of [get_documents] whose value [v] is
    truthy (a non-empty string) is sent in the query string as
    [wire=v], where [wire] is "created__gt", "created__gte", "created__lt",
    "created__lte" for [created_gt], [created_gte], [created_lt],
    [created_lte], and the argument's own name for [q], [external_id] and
    [tag] -- provided [kwargs] has no entry under that wire name, which
    would replace it. *)
Theorem get_documents_wire_names q e t gt gte lt lte kwargs w wire v :
  dict_get (get_documents_wire q e t gt gte lt lte) wire = Some v ->
  truthy v = true ->
  dict_mem kwargs wire = false ->
  let params := get_documents_params q e t gt gte lt lte kwargs in
  dict_get params wire = Some v /\
  In (wire ++ "=" ++ fmt repr_str v) (query_items repr_str params) /\
  requests_of (get_documents repr_str q e t gt gte lt lte kwargs) w
    = [mk_request "GET"
         ("/documents/?" ++ join "&" (query_items repr_str params)) []].
Proof.
  intros Hwire Hv Hkw params.
  assert (dict_get params wire = Some v) as Hget.
  { unfold params, get_documents_params.
    rewrite (dict_get_update_absent _ _ _ Hkw), get_documents_filtered_get.
    now rewrite Hwire, Hv. }
  destruct (query_item_sent params wire v Hget) as [Hin Hep].
  repeat split; trivial.
  unfold requests_of. rewrite get_documents_run. cbn [fst].
  fold params. now rewrite Hep.
Qed.

(** C9 (as amended).  When the transport answers [r], [get_documents]
    returns [r["documents"]] if [r] is a mapping with the key "documents",
    and [r] itself if [r] is a mapping without that key, a list with no
    element equal to the string "documents", or a string in which
    "documents" does not occur; on every other answer the membership test
    or the subscription raises [TypeError]. *)
Theorem get_documents_unwraps q e t gt gte lt lte kwargs w r :
  let call := get_documents repr_str q e t gt gte lt lte kwargs in
  (forall rq, In rq (requests_of call w) -> respond w [] rq = OK r) ->
  (forall d x, r = PDict d -> dict_get d "documents" = Some x ->
               outcome_of call w = OK x) /\
  (forall d, r = PDict d -> dict_get d "documents" = None ->
             outcome_of call w = OK r) /\
  (forall l, r = PList l -> existsb (str_eq_val "documents") l = false ->
             outcome_of call w = OK r) /\
  (forall s, r = PStr s -> str_contains "documents" s = false ->
             outcome_of call w = OK r) /\
  (forall l, r = PList l -> existsb (str_eq_val "documents") l = true ->
             outcome_of call w = Err TypeError) /\
  (forall s, r = PStr s -> str_contains "documents" s = true ->
             outcome_of call w = Err TypeError) /\
  (r = PNone \/ (exists b, r = PBool b) \/ (exists n, r = PInt n) ->
   outcome_of call w = Err TypeError).
Proof.
  intros call. unfold call, requests_of, outcome_of.
  rewrite get_documents_run. cbn [fst snd]. intros Hr.
  rewrite (Hr _ (or_introl eq_refl)).
  repeat split.
  - intros d x -> Hx. cbn. unfold dict_mem. now rewrite Hx.
  - intros d -> Hx. cbn. unfold dict_mem. now rewrite Hx.
  - intros l -> Hl. cbn. now rewrite Hl.
  - intros s -> Hs. cbn [py_in]. now rewrite Hs.
  - intros l -> Hl. cbn. now rewrite Hl.
  - intros s -> Hs. cbn [py_in]. now rewrite Hs.
  - intros [-> | [[b ->] | [n ->]]]; reflexivity.
Qed.



End GetDocuments.

(** ** Every method: endpoints, dispatch count, returned value *)

Section Methods.

Variable repr_str : string -> string.
Variable AddLineItem_dict : dict -> result dict.
Variable UpdateLineItem_dict : dict -> result dict.

Local Abbreviation invoked :=
  (invoke repr_str AddLineItem_dict UpdateLineItem_dict).
Local Abbreviation raises_early :=
  (raises_before_dispatch AddLineItem_dict UpdateLineItem_dict).

(** C3.  The endpoint and verb of each document, line-item and tag method:
    [get_document], [update_document] and [delete_document] issue GET, PUT
    and DELETE to "/documents/{document_id}/"; the line-item methods issue
    GET, POST and DELETE to "/documents/{document_id}/line-items/" and GET,
    PUT and DELETE to the same endpoint followed by the line item id;
    [add_tag] and [add_tags] issue PUT and POST to
    "/documents/{document_id}/tags/".  The two line-item writers dispatch
    once the model has accepted the payload. *)
Theorem methods_map_onto_rest_endpoints
    document_id line_item_id kwargs payload tag_name tags w :
  let id := fmt repr_str document_id in
  let item := fmt repr_str line_item_id in
  requests_of (get_document repr_str document_id) w
    = [mk_request "GET" ("/documents/" ++ id ++ "/") [("id", document_id)]] /\
  requests_of (update_document repr_str document_id kwargs) w
    = [mk_request "PUT" ("/documents/" ++ id ++ "/") kwargs] /\
  requests_of (delete_document repr_str document_id) w
    = [mk_request "DELETE" ("/documents/" ++ id ++ "/") [("id", document_id)]] /\
  requests_of (get_line_items repr_str document_id) w
    = [mk_request "GET" ("/documents/" ++ id ++ "/line-items/") []] /\
  requests_of (get_line_item repr_str document_id line_item_id) w
    = [mk_request "GET" ("/documents/" ++ id ++ "/line-items/" ++ item) []] /\
  requests_of (add_line_item repr_str AddLineItem_dict document_id payload) w
    = match AddLineItem_dict payload with
      | OK fields =>
          [mk_request "POST" ("/documents/" ++ id ++ "/line-items/") fields]
      | Err _ => []
      end /\
  requests_of
    (update_line_item repr_str UpdateLineItem_dict document_id line_item_id payload) w
    = match UpdateLineItem_dict payload with
      | OK fields =>
          [mk_request "PUT" ("/documents/" ++ id ++ "/line-items/" ++ item) fields]
      | Err _ => []
      end /\
  requests_of (delete_line_items repr_str document_id) w
    = [mk_request "DELETE" ("/documents/" ++ id ++ "/line-items/") []] /\
  requests_of (delete_line_item repr_str document_id line_item_id) w
    = [mk_request "DELETE" ("/documents/" ++ id ++ "/line-items/" ++ item) []] /\
  requests_of (add_tag repr_str document_id tag_name) w
    = [mk_request "PUT" ("/documents/" ++ id ++ "/tags/") [("name", tag_name)]] /\
  requests_of (add_tags repr_str document_id tags) w
    = [mk_request "POST" ("/documents/" ++ id ++ "/tags/") [("tags", tags)]].
Proof.
  cbv zeta. unfold requests_of, run.
  repeat split;
    try (unfold get_document, delete_document, get_line_items, get_line_item,
           delete_line_items, delete_line_item, bind, request, ret;
         cbn [app]; now destruct (respond w [] _)).
  - unfold add_line_item, bind, lift.
    now destruct (AddLineItem_dict payload).
  - unfold update_line_item, bind, lift.
    now destruct (UpdateLineItem_dict payload).
Qed.

(** What a call logs and what it gives back, method by method. *)
Ltac run_method :=
  unfold requests_of, outcome_of, run; cbn [invoke];
  unfold get_document, process_document_url, delete_document, update_document,
    get_line_items, get_line_item, add_line_item, update_line_item,
    delete_line_items, delete_line_item, add_tag, replace_tags, add_tags,
    process_w9_document_url, bind, request, lift, ret;
  cbn [app fst snd length].

Lemma invoke_dispatches_once c w :
  raises_early c w = false ->
  exists rq, requests_of (invoked c) w = [rq].
Proof.
  destruct c; cbn [raises_before_dispatch]; intros Hreach;
    try (eexists; run_method;
         first [ reflexivity
               | match goal with
                 | |- context [respond w [] ?rq] => now destruct (respond w [] rq)
                 end ]).
  - eexists. unfold requests_of. cbn [invoke]. now rewrite get_documents_run.
  - destruct (read_file w file_path) as [data|e] eqn:Hread; [|discriminate].
    assert (fs_open w file_path = OK (OK data)) as Hfile
      by (unfold read_file in Hread; destruct (fs_open w file_path);
          [now subst | discriminate]).
    eexists. unfold requests_of. cbn [invoke].
    now rewrite (process_document_run _ _ _ _ _ _ Hfile).
  - run_method. destruct (AddLineItem_dict payload); [|discriminate].
    now eexists.
  - run_method. destruct (UpdateLineItem_dict payload); [|discriminate].
    now eexists.
  - destruct (read_file w file_path) as [data|e] eqn:Hread; [|discriminate].
    assert (fs_open w file_path = OK (OK data)) as Hfile
      by (unfold read_file in Hread; destruct (fs_open w file_path);
          [now subst | discriminate]).
    eexists. unfold requests_of. cbn [invoke].
    now rewrite (process_w9_document_run _ _ _ _ _ Hfile).
Qed.

Lemma invoke_raises_before_dispatch c w :
  raises_early c w = true ->
  requests_of (invoked c) w = [] /\ exists e, outcome_of (invoked c) w = Err e.
Proof.
  destruct c; cbn [raises_before_dispatch]; try discriminate; intros Hfail.
  - destruct (read_file w file_path) as [data|e] eqn:Hread; [discriminate|].
    unfold requests_of, outcome_of. cbn [invoke].
    rewrite (process_document_unreadable _ _ _ _ _ _ Hread). cbn. eauto.
  - run_method. destruct (AddLineItem_dict payload); [discriminate|].
    cbn. eauto.
  - run_method. destruct (UpdateLineItem_dict payload); [discriminate|].
    cbn. eauto.
  - destruct (read_file w file_path) as [data|e] eqn:Hread; [discriminate|].
    unfold requests_of, outcome_of. cbn [invoke].
    rewrite (process_w9_document_unreadable _ _ _ _ _ Hread). cbn. eauto.
Qed.

(** C6 (as amended).  No caching and no retry: whatever the transport
    answers, one call of a public method invokes [client.request] at most
    once.  It invokes it exactly once unless the call raises before it
    gets there -- [process_document] and [process_w9_document] on a file
    that cannot be opened or read, [add_line_item] and [update_line_item]
    on a payload the model rejects -- and then not at all. *)
Theorem request_dispatched_once_unless_raised_before c w :
  length (requests_of (invoked c) w) = if raises_early c w then 0 else 1.
Proof.
  destruct (raises_early c w) eqn:Hc.
  - now destruct (invoke_raises_before_dispatch c w Hc) as [-> _].
  - now destruct (invoke_dispatches_once c w Hc) as [rq ->].
Qed.

Ltac run_whole :=
  unfold run; cbn [invoke];
  unfold get_document, process_document_url, delete_document, update_document,
    get_line_items, get_line_item, add_line_item, update_line_item,
    delete_line_items, delete_line_item, add_tag, replace_tags, add_tags,
    process_w9_document_url, bind, request, lift, ret;
  cbn [app].

Ltac exists_request :=
  match goal with
  | |- exists _, ?lhs = _ =>
      match lhs with
      | context [mk_request ?verb ?ep ?args] => exists (mk_request verb ep args)
      end
  end.

Lemma file_readable w file_path :
  is_err (read_file w file_path) = false ->
  exists data, fs_open w file_path = OK (OK data).
Proof.
  unfold read_file.
  destruct (fs_open w file_path) as [[data|e]|e]; try discriminate. eauto.
Qed.

Lemma invoke_run_returns_response c w :
  returns_response c = true ->
  raises_early c w = false ->
  exists rq, run (invoked c) w = ([rq], respond w [] rq).
Proof.
  destruct c; cbn [returns_response raises_before_dispatch]; try discriminate;
    intros _ Hreach;
    try (run_whole; exists_request;
         first [ reflexivity | now destruct (respond w [] _) ]).
  - destruct (file_readable _ _ Hreach) as [data Hfile].
    eexists. cbn [invoke]. now rewrite (process_document_run _ _ _ _ _ _ Hfile).
  - run_whole. destruct (AddLineItem_dict payload); [|discriminate].
    now eexists.
  - run_whole. destruct (UpdateLineItem_dict payload); [|discriminate].
    now eexists.
  - destruct (file_readable _ _ Hreach) as [data Hfile].
    eexists. cbn [invoke]. now rewrite (process_w9_document_run _ _ _ _ _ Hfile).
Qed.

Lemma invoke_run_returns_nothing c w :
  returns_nothing c = true ->
  exists rq,
    run (invoked c) w
    = ([rq], match respond w [] rq with OK _ => OK PNone | Err e => Err e end).
Proof.
  destruct c; cbn [returns_nothing]; try discriminate; intros _;
    run_whole; exists_request; now destruct (respond w [] _).
Qed.

(** C1 (as amended).  Every public method other than [get_documents] and
    the three deleting methods returns what the dispatch gave, unmodified
    (and raises what it raised).  [delete_document], [delete_line_items]
    and [delete_line_item] drop the response and return [None].
    [get_documents] returns a mapping unmodified only when it has no key
    "documents"; otherwise it returns the value under that key. *)
Theorem response_returned_unless_unwrapped_or_dropped c w rq :
  In rq (requests_of (invoked c) w) ->
  (returns_response c = true -> outcome_of (invoked c) w = respond w [] rq) /\
  (returns_nothing c = true ->
   outcome_of (invoked c) w
   = match respond w [] rq with OK _ => OK PNone | Err e => Err e end) /\
  (returns_response c = false -> returns_nothing c = false ->
   forall d, respond w [] rq = OK (PDict d) ->
             outcome_of (invoked c) w
             = OK match dict_get d "documents" with
                  | Some x => x
                  | None => PDict d
                  end).
Proof.
  intros Hin. split; [|split].
  - intros Hc. destruct (raises_early c w) eqn:Hearly.
    + destruct (invoke_raises_before_dispatch c w Hearly) as [Hnone _].
      rewrite Hnone in Hin. destruct Hin.
    + destruct (invoke_run_returns_response c w Hc Hearly) as [rq0 Hrun].
      unfold requests_of, outcome_of in *. rewrite Hrun in *. cbn [fst snd] in *.
      destruct Hin as [<- | []]. reflexivity.
  - intros Hc. destruct (invoke_run_returns_nothing c w Hc) as [rq0 Hrun].
    unfold requests_of, outcome_of in *. rewrite Hrun in *. cbn [fst snd] in *.
    destruct Hin as [<- | []]. reflexivity.
  - destruct c; cbn [returns_response returns_nothing]; try discriminate.
    intros _ _ d Hr. unfold requests_of, outcome_of in *. cbn [invoke] in *.
    rewrite get_documents_run in *. cbn [fst snd] in *.
    destruct Hin as [<- | []]. rewrite Hr. cbn [py_in py_getitem].
    unfold dict_mem. now destruct (dict_get d "documents").
Qed.

End Methods.

(** * Further properties *)

(** ** Dictionaries: order and uniqueness of keys *)

Lemma dict_mem_false_not_in (d : dict) k :
  dict_mem d k = false <-> ~ In k (keys d).
Proof.
  unfold dict_mem, keys. induction d as [|[k0 v0] d IH]; simpl.
  - split; [intros _ [] | reflexivity].
  - destruct (String.eqb_spec k k0) as [->|Hne].
    + split; [discriminate | intros H; exfalso; apply H; now left].
    + rewrite IH. split.
      * intros H [Heq | Hin]; [now subst | contradiction].
      * intros H Hin. apply H. now right.
Qed.

(** Assigning to a key that is absent appends the entry. *)
Lemma dict_set_absent (d : dict) k v :
  dict_mem d k = false -> dict_set d k v = (d ++ [(k, v)])%list.
Proof.
  unfold dict_mem. induction d as [|[k0 v0] d IH]; simpl; [reflexivity|].
  destruct (String.eqb_spec k k0); [discriminate|].
  intros H. now rewrite (IH H).
Qed.

(** Assigning never changes which keys come in which order, except for a
    new key going last. *)
Lemma keys_dict_set (d : dict) k v :
  keys (dict_set d k v)
  = if dict_mem d k then keys d else (keys d ++ [k])%list.
Proof.
  unfold dict_mem, keys. induction d as [|[k0 v0] d IH]; simpl; [reflexivity|].
  destruct (String.eqb_spec k k0) as [->|Hne]; simpl; [reflexivity|].
  rewrite IH. now destruct (dict_get d k).
Qed.

Lemma NoDup_keys_dict_set (d : dict) k v :
  NoDup (keys d) -> NoDup (keys (dict_set d k v)).
Proof.
  intros Hd. rewrite keys_dict_set.
  destruct (dict_mem d k) eqn:Hk; [exact Hd|].
  apply dict_mem_false_not_in in Hk.
  apply NoDup_rev in Hd. rewrite <- (rev_involutive (keys d ++ [k])).
  apply NoDup_rev. rewrite rev_app_distr. cbn.
  constructor; [now rewrite <- in_rev | exact Hd].
Qed.

Lemma NoDup_keys_dict_update (other d : dict) :
  NoDup (keys d) -> NoDup (keys (dict_update d other)).
Proof.
  unfold dict_update. revert d.
  induction other as [|[k v] other IH]; intros d Hd; simpl; [exact Hd|].
  apply IH. now apply NoDup_keys_dict_set.
Qed.

(** [update] with a well-formed dictionary installs each of its entries. *)
Lemma dict_get_update_present (other d : dict) k v :
  NoDup (keys other) -> dict_get other k = Some v ->
  dict_get (dict_update d other) k = Some v.
Proof.
  unfold dict_update. revert d.
  induction other as [|[k0 v0] other IH]; intros d Hnd Hget; [discriminate|].
  cbn in Hnd. inversion Hnd as [|? ? Hnotin Hnd']; subst.
  cbn [fold_left fst snd]. cbn in Hget.
  destruct (String.eqb_spec k k0) as [->|Hne].
  - injection Hget as <-.
    apply dict_mem_false_not_in in Hnotin.
    fold (dict_update (dict_set d k0 v0) other).
    rewrite (dict_get_update_absent _ _ _ Hnotin). apply dict_get_set_same.
  - now apply IH.
Qed.

(** [update] with fresh, distinct keys appends them in their order. *)
Lemma dict_update_fresh (other d : dict) :
  NoDup (keys other) ->
  (forall k, In k (keys other) -> dict_mem d k = false) ->
  dict_update d other = (d ++ other)%list.
Proof.
  unfold dict_update. revert d.
  induction other as [|[k v] other IH]; intros d Hnd Hfresh; simpl.
  - now rewrite app_nil_r.
  - cbn in Hnd. inversion Hnd as [|? ? Hnotin Hnd']; subst.
    rewrite (dict_set_absent d k v) by (apply Hfresh; now left).
    rewrite IH; trivial.
    + now rewrite <- app_assoc.
    + intros k' Hin. apply dict_mem_false_not_in. unfold keys.
      rewrite map_app, in_app_iff. cbn. intros [Hd | [<- | []]].
      * assert (dict_mem d k' = false) as H by (apply Hfresh; now right).
        now apply dict_mem_false_not_in in H.
      * contradiction.
Qed.

(** The keys after [d.update(other)]: those of [d] in their order, then the
    keys of [other] that [d] did not have, in theirs. *)
Lemma keys_dict_update (other d : dict) :
  NoDup (keys other) ->
  keys (dict_update d other)
  = (keys d ++ filter (fun k => negb (dict_mem d k)) (keys other))%list.
Proof.
  unfold dict_update. revert d.
  induction other as [|[k v] other IH]; intros d Hnd; cbn [fold_left fst snd].
  - cbn. now rewrite app_nil_r.
  - cbn in Hnd. inversion Hnd as [|? ? Hnotin Hnd']; subst.
    rewrite (IH _ Hnd'), keys_dict_set. cbn [keys map fst filter].
    assert (forall k', In k' (keys other) ->
              dict_mem (dict_set d k v) k' = dict_mem d k') as Hsame.
    { intros k' Hin. unfold dict_mem.
      rewrite dict_get_set_other; [reflexivity|]. intros ->. contradiction. }
    assert (filter (fun k' => negb (dict_mem (dict_set d k v) k')) (keys other)
            = filter (fun k' => negb (dict_mem d k')) (keys other)) as ->.
    { apply filter_ext_in. intros k' Hin. now rewrite Hsame. }
    destruct (dict_mem d k); cbn [negb]; [reflexivity|].
    now rewrite <- app_assoc.
Qed.

Lemma dict_mem_literal (d : dict) k :
  dict_mem d k = existsb (String.eqb k) (keys d).
Proof.
  unfold dict_mem, keys. induction d as [|[k0 v0] d IH]; cbn; [reflexivity|].
  destruct (k =? k0); [reflexivity | exact IH].
Qed.

Lemma keys_update_named (named kwargs : dict) :
  NoDup (keys kwargs) ->
  keys (dict_update named kwargs) = (keys named ++ new_keys (keys named) kwargs)%list.
Proof.
  intros Hnd. rewrite (keys_dict_update _ _ Hnd). f_equal. unfold new_keys.
  apply filter_ext. intros k. now rewrite dict_mem_literal.
Qed.

(** ** What the mapping-building methods send *)

(** X1.  [process_document_url] and [process_w9_document_url] send the keys
    they name, in the order of the literal, followed by the keys of
    [kwargs] that are new, in the order given: no key is dropped and none is
    invented.  ([kwargs] is a Python dict: its keys are distinct.) *)
Theorem url_methods_send_named_then_new_keys
    file_url categories dap boost_mode external_id max_pages file_urls
    w9_url file_name kwargs w :
  NoDup (keys kwargs) ->
  map (fun rq => keys (arguments rq))
      (requests_of
         (process_document_url file_url categories dap boost_mode external_id
                               max_pages file_urls kwargs) w)
  = [(process_document_url_keys
        ++ new_keys process_document_url_keys kwargs)%list] /\
  map (fun rq => keys (arguments rq))
      (requests_of (process_w9_document_url w9_url file_name kwargs) w)
  = [(process_w9_document_url_keys
        ++ new_keys process_w9_document_url_keys kwargs)%list].
Proof.
  intros Hnd. split.
  - unfold requests_of, run, process_document_url, request. cbn [fst app map arguments].
    now rewrite (keys_update_named _ _ Hnd).
  - unfold requests_of. rewrite process_w9_document_url_run. cbn [fst map arguments].
    now rewrite (keys_update_named _ _ Hnd).
Qed.

(** X2.  The same for the two uploads, once the file has been read:
    [process_document] sends "file_name", "file_data", "categories",
    "auto_delete" and then the new keys of [kwargs]; [process_w9_document]
    sends "file_name", "file_data" and then the new keys of [kwargs]. *)
Theorem uploads_send_named_then_new_keys
    file_path categories dap file_name kwargs w data :
  fs_open w file_path = OK (OK data) ->
  NoDup (keys kwargs) ->
  map (fun rq => keys (arguments rq))
      (requests_of (process_document file_path categories dap kwargs) w)
  = [(process_document_keys ++ new_keys process_document_keys kwargs)%list] /\
  map (fun rq => keys (arguments rq))
      (requests_of (process_w9_document file_path file_name kwargs) w)
  = [(process_w9_document_keys ++ new_keys process_w9_document_keys kwargs)%list].
Proof.
  intros Hfile Hnd. unfold requests_of. split.
  - rewrite (process_document_run _ categories dap kwargs _ _ Hfile).
    cbn [fst map arguments]. now rewrite (keys_update_named _ _ Hnd).
  - rewrite (process_w9_document_run _ file_name kwargs _ _ Hfile).
    cbn [fst map arguments]. now rewrite (keys_update_named _ _ Hnd).
Qed.

(** X3.  Every entry of [kwargs] reaches the service with its own value,
    also when its key is one a method writes itself: in the mappings of
    [process_document], [process_document_url], [process_w9_document] and
    [process_w9_document_url], and in the query parameters of
    [get_documents], the value under a key of [kwargs] is the one [kwargs]
    gives. *)
Theorem kwargs_entries_take_precedence
    file_path categories dap file_name
    file_url boost_mode external_id max_pages file_urls w9_url
    q tag gt gte lt lte kwargs k v w :
  NoDup (keys kwargs) ->
  dict_get kwargs k = Some v ->
  (forall rq,
      In rq (requests_of (process_document file_path categories dap kwargs) w) ->
      dict_get (arguments rq) k = Some v) /\
  (forall rq,
      In rq (requests_of (process_w9_document file_path file_name kwargs) w) ->
      dict_get (arguments rq) k = Some v) /\
  (exists rq,
      requests_of
        (process_document_url file_url categories dap boost_mode external_id
                              max_pages file_urls kwargs) w = [rq] /\
      dict_get (arguments rq) k = Some v) /\
  (exists rq,
      requests_of (process_w9_document_url w9_url file_name kwargs) w = [rq] /\
      dict_get (arguments rq) k = Some v) /\
  dict_get (get_documents_params q external_id tag gt gte lt lte kwargs) k = Some v.
Proof.
  intros Hnd Hget.
  assert (forall d, dict_get (dict_update d kwargs) k = Some v) as Hupd
    by (intros d; now apply dict_get_update_present).
  repeat split.
  - intros rq. unfold requests_of.
    destruct (read_file w file_path) as [data|e] eqn:Hread.
    + assert (fs_open w file_path = OK (OK data)) as Hfile
        by (unfold read_file in Hread; destruct (fs_open w file_path);
            [now subst | discriminate]).
      rewrite (process_document_run _ categories dap kwargs _ _ Hfile). cbn [fst].
      intros [<- | []]. apply Hupd.
    + rewrite (process_document_unreadable _ categories dap kwargs _ _ Hread).
      intros [].
  - intros rq. unfold requests_of.
    destruct (read_file w file_path) as [data|e] eqn:Hread.
    + assert (fs_open w file_path = OK (OK data)) as Hfile
        by (unfold read_file in Hread; destruct (fs_open w file_path);
            [now subst | discriminate]).
      rewrite (process_w9_document_run _ file_name kwargs _ _ Hfile). cbn [fst].
      intros [<- | []]. apply Hupd.
    + rewrite (process_w9_document_unreadable _ file_name kwargs _ _ Hread).
      intros [].
  - eexists. split; [reflexivity | apply Hupd].
  - eexists. split; [reflexivity | apply Hupd].
  - apply Hupd.
Qed.

(** ** [get_documents]: the query string *)

(** The guarded assignments are a filter over the table of wire names. *)
Lemma get_documents_filtered_is_filter q e t gt gte lt lte :
  get_documents_filtered q e t gt gte lt lte
  = filter (fun kv => truthy (snd kv)) (get_documents_wire q e t gt gte lt lte).
Proof.
  unfold get_documents_filtered, get_documents_wire. cbn [filter snd].
  destruct (truthy q), (truthy e), (truthy t), (truthy gt), (truthy gte),
    (truthy lt), (truthy lte); reflexivity.
Qed.

Lemma dict_mem_filter_wire q e t gt gte lt lte k :
  dict_mem (get_documents_wire q e t gt gte lt lte) k = false ->
  dict_mem (get_documents_filtered q e t gt gte lt lte) k = false.
Proof.
  unfold dict_mem. rewrite get_documents_filtered_get.
  now destruct (dict_get (get_documents_wire q e t gt gte lt lte) k).
Qed.



Section GetDocumentsQuery.

Variable repr_str : string -> string.

(** X4.  The query string of [get_documents] lists the truthy arguments in
    the fixed order q, external_id, tag, created__gt, created__gte,
    created__lt, created__lte, each under its wire name, and after them the
    entries of [kwargs] in the order given -- when the keys of [kwargs] are
    not wire names themselves. *)
Theorem get_documents_query_order q e t gt gte lt lte kwargs :
  NoDup (keys kwargs) ->
  (forall k, In k (keys kwargs) ->
             dict_mem (get_documents_wire q e t gt gte lt lte) k = false) ->
  get_documents_params q e t gt gte lt lte kwargs
  = (filter (fun kv => truthy (snd kv)) (get_documents_wire q e t gt gte lt lte)
       ++ kwargs)%list.
Proof.
  intros Hnd Hfresh. unfold get_documents_params.
  rewrite dict_update_fresh; trivial.
  - now rewrite get_documents_filtered_is_filter.
  - intros k Hin. apply dict_mem_filter_wire. now apply Hfresh.
Qed.


(** X6.  Values are spliced into the query string as they are, with no
    URL encoding: a search term that ends in "&tag=" followed by [t]
    produces the request that the search term and the tag [t] passed
    separately produce. *)
Theorem get_documents_does_not_escape (q t : string) w :
  q <> "" -> t <> "" ->
  run (get_documents repr_str (PStr (q ++ "&tag=" ++ t))
         PNone PNone PNone PNone PNone PNone []) w
  = run (get_documents repr_str (PStr q) PNone (PStr t)
           PNone PNone PNone PNone []) w.
Proof.
  intros Hq Ht.
  assert (get_documents_endpoint repr_str
            (get_documents_params (PStr (q ++ "&tag=" ++ t))
               PNone PNone PNone PNone PNone PNone [])
          = get_documents_endpoint repr_str
              (get_documents_params (PStr q) PNone (PStr t)
                 PNone PNone PNone PNone [])) as Hep.
  { unfold get_documents_params, get_documents_filtered, dict_update.
    cbn [fold_left truthy].
    assert (negb (q =? "") = true) as -> by (destruct q; [contradiction | reflexivity]).
    assert (negb (t =? "") = true) as -> by (destruct t; [contradiction | reflexivity]).
    assert (negb (q ++ "&tag=" ++ t =? "") = true) as ->
      by (destruct q; [contradiction | reflexivity]).
    reflexivity. }
  rewrite !get_documents_run. cbv zeta. now rewrite Hep.
Qed.

(** X7.  A response that is a list of mappings -- the shape of a plain
    document listing -- is returned by [get_documents] as it is, the empty
    list included. *)
Theorem get_documents_returns_list_of_mappings q e t gt gte lt lte kwargs w l :
  forallb is_dict l = true ->
  (forall rq,
      In rq (requests_of (get_documents repr_str q e t gt gte lt lte kwargs) w) ->
      respond w [] rq = OK (PList l)) ->
  outcome_of (get_documents repr_str q e t gt gte lt lte kwargs) w = OK (PList l).
Proof.
  intros Hl. unfold requests_of, outcome_of. rewrite get_documents_run.
  cbn [fst snd]. intros Hr. rewrite (Hr _ (or_introl eq_refl)). cbn [py_in].
  assert (existsb (str_eq_val "documents") l = false) as Hno.
  { clear Hr. induction l as [|x l IH]; [reflexivity|].
    cbn in Hl. apply andb_prop in Hl as [Hx Hl]. cbn [existsb].
    rewrite (IH Hl). destruct x; cbn in Hx; try discriminate Hx. reflexivity. }
  now rewrite Hno.
Qed.

End GetDocumentsQuery.

(** ** Where exceptions come from, and what a normal return means *)

Section Outcomes.

Variable repr_str : string -> string.
Variable AddLineItem_dict : dict -> result dict.
Variable UpdateLineItem_dict : dict -> result dict.

Local Abbreviation called :=
  (invoke repr_str AddLineItem_dict UpdateLineItem_dict).
Local Abbreviation early :=
  (raised_before_dispatch AddLineItem_dict UpdateLineItem_dict).

Ltac run_call :=
  unfold run; cbn [invoke];
  unfold get_document, process_document_url, delete_document, update_document,
    get_line_items, get_line_item, add_line_item, update_line_item,
    delete_line_items, delete_line_item, add_tag, replace_tags, add_tags,
    process_w9_document_url, bind, request, lift, ret;
  cbn [app].

Lemma read_file_cases w file_path :
  (exists data, fs_open w file_path = OK (OK data) /\ read_file w file_path = OK data)
  \/ (exists e, read_file w file_path = Err e).
Proof.
  unfold read_file. destruct (fs_open w file_path) as [[data|e]|e]; eauto.
Qed.

Ltac pick_request :=
  match goal with
  | |- _ = ([?x], _) =>
      match goal with
      | |- context [mk_request ?verb ?ep ?args] => unify x (mk_request verb ep args)
      end
  end.

Lemma every_run_has_a_shape c w :
  run_shape repr_str AddLineItem_dict UpdateLineItem_dict c w.
Proof.
  destruct c.
  - eapply shape_unwrapped; try reflexivity. cbn [invoke]. apply get_documents_run.
  - eapply shape_passed; try reflexivity. run_call. pick_request. now destruct (respond w [] _).
  - destruct (read_file_cases w file_path) as [[data [Hfile Hread]] | [e Hread]].
    + eapply shape_passed; try reflexivity.
      * cbn. now rewrite Hread.
      * cbn [invoke]. now rewrite (process_document_run _ _ _ _ _ _ Hfile).
    + eapply (shape_early _ _ _ _ _ e).
      * cbn. now rewrite Hread.
      * cbn [invoke]. now apply process_document_unreadable.
  - eapply shape_passed; reflexivity.
  - eapply shape_dropped; try reflexivity. run_call. pick_request. now destruct (respond w [] _).
  - eapply shape_passed; reflexivity.
  - eapply shape_passed; try reflexivity. run_call. pick_request. now destruct (respond w [] _).
  - eapply shape_passed; try reflexivity. run_call. pick_request. now destruct (respond w [] _).
  - destruct (AddLineItem_dict payload) as [fields|e] eqn:Hmodel.
    + eapply shape_passed; try reflexivity.
      * cbn. now rewrite Hmodel.
      * run_call. now rewrite Hmodel.
    + eapply (shape_early _ _ _ _ _ e).
      * cbn. now rewrite Hmodel.
      * run_call. now rewrite Hmodel.
  - destruct (UpdateLineItem_dict payload) as [fields|e] eqn:Hmodel.
    + eapply shape_passed; try reflexivity.
      * cbn. now rewrite Hmodel.
      * run_call. now rewrite Hmodel.
    + eapply (shape_early _ _ _ _ _ e).
      * cbn. now rewrite Hmodel.
      * run_call. now rewrite Hmodel.
  - eapply shape_dropped; try reflexivity. run_call. pick_request. now destruct (respond w [] _).
  - eapply shape_dropped; try reflexivity. run_call. pick_request. now destruct (respond w [] _).
  - eapply shape_passed; reflexivity.
  - eapply shape_passed; reflexivity.
  - eapply shape_passed; reflexivity.
  - eapply shape_passed; reflexivity.
  - destruct (read_file_cases w file_path) as [[data [Hfile Hread]] | [e Hread]].
    + eapply shape_passed; try reflexivity.
      * cbn. now rewrite Hread.
      * cbn [invoke]. now rewrite (process_w9_document_run _ _ _ _ _ Hfile).
    + eapply (shape_early _ _ _ _ _ e).
      * cbn. now rewrite Hread.
      * cbn [invoke]. now apply process_w9_document_unreadable.
Qed.

(** [get_documents] subscripts only after the membership test has
    succeeded, so the subscription cannot miss the key. *)
Lemma unwrap_error r e :
  match py_in "documents" r with
  | Err e => Err e
  | OK true => py_getitem r "documents"
  | OK false => OK r
  end = Err e ->
  e = TypeError /\ is_dict r = false.
Proof.
  destruct r as [| b | n | s | l | d]; cbn [py_in py_getitem is_dict].
  - now intros [= <-].
  - now intros [= <-].
  - now intros [= <-].
  - destruct (str_contains "documents" s); [now intros [= <-] | discriminate].
  - destruct (existsb (str_eq_val "documents") l); [now intros [= <-] | discriminate].
  - unfold dict_mem. destruct (dict_get d "documents"); discriminate.
Qed.

(** X8.  A public method has no exception of its own to raise, with one
    exception.  What it raises is what [open] or [read] raised (the
    uploads), what the model raised (the line-item writers), or what
    [client.request] raised; only [get_documents] adds a [TypeError], when
    the response is not a mapping and contains "documents" or cannot be
    searched.  In particular the subscription in [get_documents] never
    misses its key, and the UTF-8 decoding in the uploads never fails. *)
Theorem exceptions_come_from_outside c w e :
  outcome_of (called c) w = Err e ->
  early c w = Some e \/
  (exists rq, requests_of (called c) w = [rq] /\ respond w [] rq = Err e) \/
  (exists rq r,
      requests_of (called c) w = [rq] /\ respond w [] rq = OK r /\
      returns_response c = false /\ returns_nothing c = false /\
      is_dict r = false /\ e = TypeError).
Proof.
  unfold outcome_of, requests_of.
  destruct (every_run_has_a_shape c w) as [e' He Hrun | rq He Hc Hrun
                                           | rq He Hc Hrun | rq He Hc Hc' Hrun];
    rewrite Hrun; cbn [fst snd]; intros Herr.
  - left. congruence.
  - right. left. eauto.
  - right. left. exists rq. split; [reflexivity|].
    destruct (respond w [] rq); [discriminate | exact Herr].
  - right. destruct (respond w [] rq) as [r|e'] eqn:Hr.
    + right. apply unwrap_error in Herr as [-> Hnd]. exists rq, r. auto 7.
    + left. exists rq. split; [reflexivity | congruence].
Qed.

(** X9.  Whatever [client.request] raises comes out of the calling method
    unchanged: no public method catches, wraps or retries. *)
Theorem transport_exceptions_propagate c w rq e :
  In rq (requests_of (called c) w) ->
  respond w [] rq = Err e ->
  outcome_of (called c) w = Err e.
Proof.
  unfold outcome_of, requests_of.
  destruct (every_run_has_a_shape c w) as [e' He Hrun | rq0 He Hc Hrun
                                           | rq0 He Hc Hrun | rq0 He Hc Hc' Hrun];
    rewrite Hrun; cbn [fst snd].
  - intros [].
  - intros [<- | []] Hr. exact Hr.
  - intros [<- | []] Hr. now rewrite Hr.
  - intros [<- | []] Hr. now rewrite Hr.
Qed.

(** X10.  A public method that returns a value has dispatched exactly one
    request, and the transport answered that request without raising:
    nothing is answered from a cache or made up. *)
Theorem normal_return_means_one_answered_request c w v :
  outcome_of (called c) w = OK v ->
  exists rq r,
    requests_of (called c) w = [rq] /\ respond w [] rq = OK r /\
    early c w = None.
Proof.
  unfold outcome_of, requests_of.
  destruct (every_run_has_a_shape c w) as [e' He Hrun | rq He Hc Hrun
                                           | rq He Hc Hrun | rq He Hc Hc' Hrun];
    rewrite Hrun; cbn [fst snd]; intros Hv.
  - discriminate.
  - exists rq, v. auto.
  - destruct (respond w [] rq) as [r|e'] eqn:Hr; [|discriminate].
    exists rq, r. auto.
  - destruct (respond w [] rq) as [r|e'] eqn:Hr; [|discriminate].
    exists rq, r. auto.
Qed.

End Outcomes.

(** ** [b64encode] loses nothing *)

Local Open Scope N_scope.

Lemma land_shiftl_small y k x : x < 2 ^ k -> N.land (N.shiftl y k) x = 0.
Proof.
  intros H. apply N.bits_inj_0. intros i. rewrite N.land_spec.
  destruct (N.ltb_spec i k).
  - now rewrite N.shiftl_spec_low.
  - rewrite <- (N.mod_small x (2 ^ k)) by assumption.
    rewrite N.mod_pow2_bits_high by assumption. apply andb_false_r.
Qed.

Lemma lor_shiftl_small y k x : x < 2 ^ k -> N.lor (N.shiftl y k) x = y * 2 ^ k + x.
Proof.
  intros H. rewrite <- N.lxor_lor, <- N.add_nocarry_lxor by now apply land_shiftl_small.
  now rewrite N.shiftl_mul_pow2.
Qed.

Lemma to_N_bound (b : byte) : Byte.to_N b < 256.
Proof. pose proof (Byte.to_N_bounded b). lia. Qed.

Lemma group_value a b c :
  N.lor (N.lor (N.shiftl (Byte.to_N a) 16) (N.shiftl (Byte.to_N b) 8)) (Byte.to_N c)
  = Byte.to_N a * 65536 + Byte.to_N b * 256 + Byte.to_N c.
Proof.
  pose proof (to_N_bound a). pose proof (to_N_bound b). pose proof (to_N_bound c).
  rewrite (N.shiftl_mul_pow2 (Byte.to_N b) 8).
  rewrite lor_shiftl_small by (change (2 ^ 16) with 65536; change (2^8) with 256; lia).
  change (2 ^ 16) with 65536; change (2^8) with 256.
  replace (Byte.to_N a * 65536 + Byte.to_N b * 256)
    with (N.shiftl (Byte.to_N a * 256 + Byte.to_N b) 8)
    by (rewrite N.shiftl_mul_pow2; change (2^8) with 256; lia).
  rewrite lor_shiftl_small by (change (2^8) with 256; lia).
  rewrite ?N.shiftl_mul_pow2. change (2^8) with 256. lia.
Qed.

Lemma sextet n k : N.land (N.shiftr n k) 63 = (n / 2 ^ k) mod 64.
Proof.
  rewrite N.shiftr_div_pow2. change 63 with (N.ones 6). now rewrite N.land_ones.
Qed.

Lemma div_mod_inj n m d :
  d <> 0 -> n / d = m / d -> n mod d = m mod d -> n = m.
Proof.
  intros Hd Hq Hr.
  rewrite (N.div_mod n d Hd), (N.div_mod m d Hd). now rewrite Hq, Hr.
Qed.

Lemma digits_inj n m :
  n < 16777216 -> m < 16777216 ->
  (n / 2^18) mod 64 = (m / 2^18) mod 64 ->
  (n / 2^12) mod 64 = (m / 2^12) mod 64 ->
  (n / 2^6) mod 64 = (m / 2^6) mod 64 ->
  (n / 2^0) mod 64 = (m / 2^0) mod 64 ->
  n = m.
Proof.
  intros Hn Hm H18 H12 H6 H0.
  assert (n / 2^18 = m / 2^18) as E18.
  { rewrite (N.mod_small (n / 2^18)), (N.mod_small (m / 2^18)) in H18; trivial;
      apply N.Div0.div_lt_upper_bound; exact Hm || exact Hn. }
  assert (n / 2^12 = m / 2^12) as E12.
  { apply (div_mod_inj _ _ 64); [discriminate | | exact H12].
    rewrite !N.Div0.div_div. exact E18. }
  assert (n / 2^6 = m / 2^6) as E6.
  { apply (div_mod_inj _ _ 64); [discriminate | | exact H6].
    rewrite !N.Div0.div_div. exact E12. }
  apply (div_mod_inj _ _ 64); [discriminate | exact E6 |].
  now rewrite !N.div_1_r in H0.
Qed.

Lemma b64_index_char n : b64_index (b64_char n) = N.land n 63.
Proof.
  unfold b64_char.
  assert (N.land n 63 < 64) as Hlt
    by (change 63 with (N.ones 6); rewrite N.land_ones; now apply N.mod_lt).
  assert (forallb (fun k => N.eqb (b64_index (nth k b64_alphabet b64_pad)) (N.of_nat k))
                  (seq 0 64) = true) as Hall by (vm_compute; reflexivity).
  rewrite forallb_forall in Hall.
  specialize (Hall (N.to_nat (N.land n 63))).
  rewrite N2Nat.id in Hall. apply N.eqb_eq, Hall.
  apply in_seq. lia.
Qed.

Lemma b64_char_not_pad n : b64_char n <> b64_pad.
Proof.
  intros H. pose proof (b64_index_char n) as Hi. rewrite H in Hi.
  assert (N.land n 63 < 64) as Hlt
    by (change 63 with (N.ones 6); rewrite N.land_ones; now apply N.mod_lt).
  change (b64_index b64_pad) with 64 in Hi. lia.
Qed.

Lemma b64_char_inj n m : b64_char n = b64_char m -> N.land n 63 = N.land m 63.
Proof. intros H. rewrite <- !b64_index_char. now rewrite H. Qed.

Lemma to_N_inj (x y : byte) : Byte.to_N x = Byte.to_N y -> x = y.
Proof.
  intros H. pose proof (Byte.of_to_N x) as Hx. rewrite H, Byte.of_to_N in Hx.
  now injection Hx.
Qed.

Lemma group_bytes_inj a b c a' b' c' :
  Byte.to_N a * 65536 + Byte.to_N b * 256 + Byte.to_N c
  = Byte.to_N a' * 65536 + Byte.to_N b' * 256 + Byte.to_N c' ->
  a = a' /\ b = b' /\ c = c'.
Proof.
  pose proof (to_N_bound a). pose proof (to_N_bound b). pose proof (to_N_bound c).
  pose proof (to_N_bound a'). pose proof (to_N_bound b'). pose proof (to_N_bound c').
  intros E.
  assert (Byte.to_N a = Byte.to_N a' /\ Byte.to_N b = Byte.to_N b'
          /\ Byte.to_N c = Byte.to_N c') as [Ea [Eb Ec]].
  { destruct (N.div_mod_unique 256 (Byte.to_N a * 256 + Byte.to_N b)
                (Byte.to_N a' * 256 + Byte.to_N b') (Byte.to_N c) (Byte.to_N c'))
      as [Eab Ec]; trivial; [lia|].
    destruct (N.div_mod_unique 256 (Byte.to_N a) (Byte.to_N a')
                (Byte.to_N b) (Byte.to_N b')) as [Ea Eb]; trivial; [lia|].
    auto. }
  repeat split; apply to_N_inj; assumption.
Qed.

Lemma group_inj a b c a' b' c' :
  N.land (N.shiftr (group a b c) 18) 63 = N.land (N.shiftr (group a' b' c') 18) 63 ->
  N.land (N.shiftr (group a b c) 12) 63 = N.land (N.shiftr (group a' b' c') 12) 63 ->
  N.land (N.shiftr (group a b c) 6) 63 = N.land (N.shiftr (group a' b' c') 6) 63 ->
  N.land (N.shiftr (group a b c) 0) 63 = N.land (N.shiftr (group a' b' c') 0) 63 ->
  a = a' /\ b = b' /\ c = c'.
Proof.
  rewrite !sextet. unfold group. rewrite !group_value.
  intros H18 H12 H6 H0.
  apply group_bytes_inj.
  pose proof (to_N_bound a). pose proof (to_N_bound b). pose proof (to_N_bound c).
  pose proof (to_N_bound a'). pose proof (to_N_bound b'). pose proof (to_N_bound c').
  apply digits_inj; trivial; lia.
Qed.

Lemma group_one a : N.shiftl (Byte.to_N a) 16 = group a x00 x00.
Proof.
  unfold group. change (Byte.to_N x00) with 0.
  now rewrite N.shiftl_0_l, !N.lor_0_r.
Qed.

Lemma group_two a b :
  N.lor (N.shiftl (Byte.to_N a) 16) (N.shiftl (Byte.to_N b) 8) = group a b x00.
Proof. unfold group. change (Byte.to_N x00) with 0. now rewrite N.lor_0_r. Qed.

(** The sextets that padding stands for are zero. *)
Lemma group_low0 a b : N.land (N.shiftr (group a b x00) 0) 63 = 0.
Proof.
  rewrite sextet. unfold group. rewrite group_value. change (Byte.to_N x00) with 0.
  rewrite N.div_1_r.
  replace (Byte.to_N a * 65536 + Byte.to_N b * 256 + 0)
    with ((Byte.to_N a * 1024 + Byte.to_N b * 4) * 64) by lia.
  apply N.Div0.mod_mul.
Qed.

Lemma group_low6 a : N.land (N.shiftr (group a x00 x00) 6) 63 = 0.
Proof.
  rewrite sextet. unfold group. rewrite group_value. change (Byte.to_N x00) with 0.
  replace (Byte.to_N a * 65536 + 0 * 256 + 0)
    with ((Byte.to_N a * 1024) * 2 ^ 6) by (change (2 ^ 6) with 64; lia).
  rewrite N.div_mul by discriminate.
  replace (Byte.to_N a * 1024) with ((Byte.to_N a * 16) * 64) by lia.
  apply N.Div0.mod_mul.
Qed.

Ltac pad_clash :=
  match goal with
  | H : b64_char _ = b64_pad |- _ => exfalso; exact (b64_char_not_pad _ H)
  | H : b64_pad = b64_char _ |- _ => exfalso; exact (b64_char_not_pad _ (eq_sym H))
  end.

Lemma cons_inj {A} (x y : A) (l l' : list A) :
  x :: l = y :: l' -> x = y /\ l = l'.
Proof. intros [= -> ->]. now split. Qed.

Lemma b64encode_nil_inv (y : list byte) : b64encode y = [] -> y = [].
Proof. destruct y as [|a [|b [|c rest]]]; [reflexivity | | |]; intros [=]. Qed.

Theorem b64encode_inj (x y : list byte) : b64encode x = b64encode y -> x = y.
Proof.
  revert y. induction x as [|a|a b|a b c rest IH] using list_ind3;
    intros [|a' [|b' [|c' rest']]]; intros E;
    try reflexivity;
    try (now apply b64encode_nil_inv in E);
    try (symmetry in E; now apply b64encode_nil_inv in E);
    cbn [b64encode] in E;
    apply cons_inj in E as [E18 E]; apply cons_inj in E as [E12 E];
    apply cons_inj in E as [E6 E]; apply cons_inj in E as [E0 E];
    try pad_clash.
  - rewrite (group_one a), (group_one a') in E18, E12.
    apply b64_char_inj in E18, E12.
    destruct (group_inj a x00 x00 a' x00 x00) as [-> _];
      [exact E18 | exact E12 | | | reflexivity].
    + rewrite !group_low6. reflexivity.
    + rewrite !group_low0. reflexivity.
  - rewrite (group_two a b), (group_two a' b') in E18, E12, E6.
    apply b64_char_inj in E18, E12, E6.
    destruct (group_inj a b x00 a' b' x00) as [-> [-> _]];
      [exact E18 | exact E12 | exact E6 | | reflexivity].
    rewrite !group_low0. reflexivity.
  - fold (group a b c) in E18, E12, E6, E0. fold (group a' b' c') in E18, E12, E6, E0.
    apply b64_char_inj in E18, E12, E6, E0.
    destruct (group_inj a b c a' b' c') as [-> [-> ->]];
      [exact E18 | exact E12 | exact E6 | | ].
    + rewrite !N.shiftr_0_r. exact E0.
    + rewrite (IH _ E). reflexivity.
Qed.

Local Close Scope N_scope.

(** ** What the uploads send about the file *)

Lemma string_of_list_byte_inj (l l' : list byte) :
  string_of_list_byte l = string_of_list_byte l' -> l = l'.
Proof.
  intros H. rewrite <- (list_byte_of_string_of_list_byte l),
    <- (list_byte_of_string_of_list_byte l'). now rewrite H.
Qed.

Lemma length_string_of_list_byte (l : list byte) :
  String.length (string_of_list_byte l) = length l.
Proof.
  induction l as [|b l IH]; [reflexivity|].
  change (string_of_list_byte (b :: l))
    with (String (ascii_of_byte b) (string_of_list_byte l)).
  cbn [String.length length]. now rewrite IH.
Qed.

(** X11.  The base64 text [process_document] and [process_w9_document]
    send determines the file: two readable files whose requests carry the
    same "file_data" have the same bytes. *)
Theorem file_data_determines_file_contents
    path1 path2 categories dap file_name kwargs w data1 data2 :
  fs_open w path1 = OK (OK data1) ->
  fs_open w path2 = OK (OK data2) ->
  dict_mem kwargs "file_data" = false ->
  (forall rq1 rq2,
      In rq1 (requests_of (process_document path1 categories dap kwargs) w) ->
      In rq2 (requests_of (process_document path2 categories dap kwargs) w) ->
      dict_get (arguments rq1) "file_data" = dict_get (arguments rq2) "file_data" ->
      data1 = data2) /\
  (forall rq1 rq2,
      In rq1 (requests_of (process_w9_document path1 file_name kwargs) w) ->
      In rq2 (requests_of (process_w9_document path2 file_name kwargs) w) ->
      dict_get (arguments rq1) "file_data" = dict_get (arguments rq2) "file_data" ->
      data1 = data2).
Proof.
  intros H1 H2 Hkw. unfold requests_of. split; intros rq1 rq2.
  - rewrite (process_document_run _ categories dap kwargs _ _ H1),
      (process_document_run _ categories dap kwargs _ _ H2). cbn [fst].
    intros [<- | []] [<- | []]. cbn [arguments].
    rewrite !(dict_get_update_absent _ _ _ Hkw). cbn. intros [= E].
    now apply b64encode_inj, string_of_list_byte_inj.
  - rewrite (process_w9_document_run _ file_name kwargs _ _ H1),
      (process_w9_document_run _ file_name kwargs _ _ H2). cbn [fst].
    intros [<- | []] [<- | []]. cbn [arguments].
    rewrite !(dict_get_update_absent _ _ _ Hkw). cbn. intros [= E].
    now apply b64encode_inj, string_of_list_byte_inj.
Qed.

(** X12.  The "file_data" of a file of [n] bytes is a text of
    [4 * ceil(n / 3)] characters: the upload grows by a third, and an empty
    file is sent as the empty string. *)
Theorem file_data_length file_path categories dap file_name kwargs w data :
  fs_open w file_path = OK (OK data) ->
  dict_mem kwargs "file_data" = false ->
  exists text,
    String.length text = 4 * ((length data + 2) / 3) /\
    (exists rq,
        requests_of (process_document file_path categories dap kwargs) w = [rq] /\
        dict_get (arguments rq) "file_data" = Some (PStr text)) /\
    (exists rq,
        requests_of (process_w9_document file_path file_name kwargs) w = [rq] /\
        dict_get (arguments rq) "file_data" = Some (PStr text)).
Proof.
  intros Hfile Hkw. exists (string_of_list_byte (b64encode data)).
  split; [now rewrite length_string_of_list_byte, b64encode_length|].
  unfold requests_of. split; eexists.
  - rewrite (process_document_run _ categories dap kwargs _ _ Hfile). cbn [fst].
    split; [reflexivity|]. cbn [arguments].
    now rewrite (dict_get_update_absent _ _ _ Hkw).
  - rewrite (process_w9_document_run _ file_name kwargs _ _ Hfile). cbn [fst].
    split; [reflexivity|]. cbn [arguments].
    now rewrite (dict_get_update_absent _ _ _ Hkw).
Qed.





(** ** Endpoints built from ids *)

Lemma has_slash_string_of_uint (d : Decimal.uint) :
  has_slash (NilEmpty.string_of_uint d) = false.
Proof. induction d; cbn; trivial. Qed.

Lemma has_slash_decimal (n : Z) :
  has_slash (NilZero.string_of_int (Z.to_int n)) = false.
Proof.
  destruct n as [|p|p]; [reflexivity | |]; cbn [Z.to_int NilZero.string_of_int].
  - unfold NilZero.string_of_uint.
    destruct (Pos.to_uint p); try apply has_slash_string_of_uint; reflexivity.
  - cbn [has_slash]. unfold NilZero.string_of_uint.
    destruct (Pos.to_uint p); try apply has_slash_string_of_uint; reflexivity.
Qed.

Lemma to_int_proper (n : Z) :
  Z.to_int n <> Decimal.Pos Decimal.Nil /\ Z.to_int n <> Decimal.Neg Decimal.Nil.
Proof.
  destruct n as [|p|p]; cbn [Z.to_int]; split; try discriminate;
    intros [= H]; now apply (DecimalPos.Unsigned.to_uint_nonnil p).
Qed.

(** Decimal printing of integers is one-to-one. *)
Lemma decimal_inj (n m : Z) :
  NilZero.string_of_int (Z.to_int n) = NilZero.string_of_int (Z.to_int m) -> n = m.
Proof.
  intros H. apply DecimalZ.to_int_inj.
  destruct (to_int_proper n) as [Hn1 Hn2]. destruct (to_int_proper m) as [Hm1 Hm2].
  pose proof (NilZero.isi _ Hn1 Hn2) as En. pose proof (NilZero.isi _ Hm1 Hm2) as Em.
  rewrite H, Em in En. now injection En.
Qed.

(** Two texts cut at their first "/" agree piece by piece. *)
Lemma split_at_slash (s1 s2 r1 r2 : string) :
  has_slash s1 = false -> has_slash s2 = false ->
  s1 ++ String "/" r1 = s2 ++ String "/" r2 -> s1 = s2 /\ r1 = r2.
Proof.
  revert s2. induction s1 as [|c s1 IH]; intros [|c' s2] H1 H2 E; cbn in *.
  - injection E as ->. now split.
  - injection E as <- _. discriminate H2.
  - injection E as -> _. discriminate H1.
  - injection E as -> E. apply orb_false_elim in H1 as [_ H1].
    apply orb_false_elim in H2 as [_ H2].
    destruct (IH _ H1 H2 E) as [-> ->]. now split.
Qed.

Section Ids.

Variable repr_str : string -> string.

(** X14.  Integer ids never collide: if [get_line_item] is sent to the
    same endpoint for two pairs of integer ids, the document ids are equal
    and the line item ids are equal; likewise [get_document] for two integer
    document ids. *)
Theorem integer_ids_address_distinct_endpoints (a b x y : Z) w w' :
  (map endpoint (requests_of (get_document repr_str (PInt a)) w)
   = map endpoint (requests_of (get_document repr_str (PInt b)) w') -> a = b) /\
  (map endpoint (requests_of (get_line_item repr_str (PInt a) (PInt x)) w)
   = map endpoint (requests_of (get_line_item repr_str (PInt b) (PInt y)) w') ->
   a = b /\ x = y).
Proof.
  assert (forall n v,
             map endpoint (requests_of (get_document repr_str n) v)
             = ["/documents/" ++ fmt repr_str n ++ "/"]) as Hdoc.
  { intros n v. unfold requests_of, run, get_document, bind, request, ret.
    cbn [app]. now destruct (respond v [] _). }
  assert (forall n i v,
             map endpoint (requests_of (get_line_item repr_str n i) v)
             = ["/documents/" ++ fmt repr_str n ++ "/line-items/" ++ fmt repr_str i])
    as Hitem.
  { intros n i v. unfold requests_of, run, get_line_item, bind, request, ret.
    cbn [app]. now destruct (respond v [] _). }
  rewrite !Hdoc, !Hitem. unfold fmt. cbn [py_str py_repr]. split.
  - intros [= E].
    apply split_at_slash in E as [E _]; try apply has_slash_decimal.
    now apply decimal_inj.
  - intros [= E].
    apply split_at_slash in E as [E1 E2]; try apply has_slash_decimal.
    cbn in E2. injection E2 as E2.
    split; now apply decimal_inj.
Qed.

(** X15.  An empty line item id addresses the whole collection:
    [get_line_item] and [delete_line_item] called with the empty string do
    exactly what [get_line_items] and [delete_line_items] do -- the latter
    deleting every line item of the document. *)
Theorem empty_line_item_id_addresses_all_line_items document_id w :
  run (get_line_item repr_str document_id (PStr "")) w
  = run (get_line_items repr_str document_id) w /\
  run (delete_line_item repr_str document_id (PStr "")) w
  = run (delete_line_items repr_str document_id) w.
Proof. split; reflexivity. Qed.

End Ids.

(** ** The file system *)

Section FileSystem.

Variable repr_str : string -> string.
Variable AddLineItem_dict : dict -> result dict.
Variable UpdateLineItem_dict : dict -> result dict.

(** X16.  Only [process_document] and [process_w9_document] touch the
    file system: the run of every other public method is the same whatever
    files exist -- in particular the URL methods never read the URL they are
    given. *)
Theorem only_uploads_touch_the_file_system c w files :
  reads_file c = false ->
  run (invoke repr_str AddLineItem_dict UpdateLineItem_dict c)
      (mk_world files (respond w))
  = run (invoke repr_str AddLineItem_dict UpdateLineItem_dict c) w.
Proof.
  destruct c; cbn [reads_file]; try discriminate; intros _;
    [ cbn [invoke]; rewrite !get_documents_run; reflexivity | .. ];
    unfold run; cbn [invoke];
    unfold get_document, process_document_url, delete_document,
      update_document, get_line_items, get_line_item, add_line_item,
      update_line_item, delete_line_items, delete_line_item, add_tag, replace_tags,
      add_tags, process_w9_document_url, bind, request, lift, ret;
    cbn [respond app]; reflexivity.
Qed.

End FileSystem.

(** * Concrete runs *)

Example b64encode_rfc4648 :
  map (fun s => string_of_list_byte (b64encode (list_byte_of_string s)))
      [""; "f"; "fo"; "foo"; "foob"; "fooba"; "foobar"]
  = [""; "Zg=="; "Zm8="; "Zm9v"; "Zm9vYg=="; "Zm9vYmE="; "Zm9vYmFy"].
Proof. reflexivity. Qed.

Example basename_samples :
  map basename ["/tmp/receipt.jpg"; "receipt.jpg"; "/tmp/"; "";
                "https://cdn.example.com/w9.pdf"]
  = ["receipt.jpg"; "receipt.jpg"; ""; ""; "w9.pdf"].
Proof. reflexivity. Qed.

Example decode_utf8_samples :
  decode_utf8 [x63; xc3; xa9] = OK (string_of_list_byte [x63; xc3; xa9]) /\
  decode_utf8 [xc0; x80] = Err UnicodeDecodeError /\
  decode_utf8 [xed; xa0; x80] = Err UnicodeDecodeError /\
  decode_utf8 [xff] = Err UnicodeDecodeError.
Proof. repeat split. Qed.

Example get_documents_query :
  run (get_documents sample_repr (PStr "invoice") PNone PNone
         (PStr "2021-01-01+00:00:00") PNone PNone PNone [("page", PInt 2)])
      (answering (OK (PDict [("documents", PList [PDict [("id", PInt 7)]])])))
  = ([mk_request "GET"
        "/documents/?q=invoice&created__gt=2021-01-01+00:00:00&page=2" []],
     OK (PList [PDict [("id", PInt 7)]])).
Proof. reflexivity. Qed.

Example get_line_item_endpoint :
  requests_of (get_line_item sample_repr (PInt 42) (PStr "9")) (answering (OK PNone))
  = [mk_request "GET" "/documents/42/line-items/9" []].
Proof. reflexivity. Qed.

Example process_document_request :
  requests_of (process_document "/tmp/receipt.jpg" (PList [PStr "Travel"])
                 (PBool true) [("boost_mode", PInt 1)])
              (answering (OK PNone))
  = [mk_request "POST" "/documents/"
       [ ("file_name", PStr "receipt.jpg");
         ("file_data", PStr "aGk=");
         ("categories", PList [PStr "Travel"]);
         ("auto_delete", PBool true);
         ("boost_mode", PInt 1) ]].
Proof. reflexivity. Qed.

(** ** C1 *)

Lemma response_returned_witness :
  outcome_of (sample_invoke (call_get_document (PInt 7)))
             (answering (OK (PDict [("id", PInt 7)])))
  = OK (PDict [("id", PInt 7)]).
Proof.
  refine (proj1 (response_returned_unless_unwrapped_or_dropped
                   sample_repr sample_model sample_model
                   (call_get_document (PInt 7))
                   (answering (OK (PDict [("id", PInt 7)])))
                   (mk_request "GET" "/documents/7/" [("id", PInt 7)]) _) _).
  - left. reflexivity.
  - reflexivity.
Defined.

(** [delete_document] returns [None], not the response it was given, and
    [get_documents] returns the list under "documents", not the mapping. *)
Lemma delete_and_list_do_not_return_response :
  ~ (forall rq,
        In rq (requests_of (sample_invoke (call_delete_document (PInt 7)))
                           (answering (OK (PDict [("status", PStr "ok")])))) ->
        outcome_of (sample_invoke (call_delete_document (PInt 7)))
                   (answering (OK (PDict [("status", PStr "ok")])))
        = respond (answering (OK (PDict [("status", PStr "ok")]))) [] rq) /\
  ~ (forall rq,
        In rq (requests_of
                 (sample_invoke
                    (call_get_documents PNone PNone PNone PNone PNone PNone PNone []))
                 (answering (OK (PDict [("documents", PList [])])))) ->
        outcome_of
          (sample_invoke
             (call_get_documents PNone PNone PNone PNone PNone PNone PNone []))
          (answering (OK (PDict [("documents", PList [])])))
        = respond (answering (OK (PDict [("documents", PList [])]))) [] rq).
Proof.
  split; intros H; specialize (H _ (or_introl eq_refl)); discriminate H.
Qed.

(** ** C2 *)


(** ** C4 *)

Lemma get_documents_wire_names_witness :
  requests_of
    (get_documents sample_repr PNone PNone PNone (PStr "2021-01-01") PNone PNone
                   (PStr "2021-12-31") [])
    (answering (OK (PList [])))
  = [mk_request "GET"
       "/documents/?created__gt=2021-01-01&created__lte=2021-12-31" []].
Proof.
  exact (proj2 (proj2 (get_documents_wire_names sample_repr
                         PNone PNone PNone (PStr "2021-01-01") PNone PNone
                         (PStr "2021-12-31") [] (answering (OK (PList [])))
                         "created__lte" (PStr "2021-12-31")
                         eq_refl eq_refl eq_refl))).
Defined.

(** A supplied empty string is not sent at all, and a "created__gt" that
    comes in through [kwargs] replaces the value of [created_gt]. *)
Lemma supplied_created_gt_not_sent :
  requests_of
    (get_documents sample_repr PNone PNone PNone (PStr "") PNone PNone PNone [])
    (answering (OK (PList [])))
  = [mk_request "GET" "/documents/" []] /\
  dict_get (get_documents_params PNone PNone PNone (PStr "") PNone PNone PNone [])
           "created__gt"
  <> Some (PStr "") /\
  dict_get (get_documents_params PNone PNone PNone (PStr "2021-01-01") PNone PNone
              PNone [("created__gt", PStr "2022-02-02")])
           "created__gt"
  <> Some (PStr "2021-01-01").
Proof. repeat split; discriminate. Qed.

(** ** C5 *)

Lemma upload_sends_base64_witness :
  exists args,
    requests_of (process_w9_document "/tmp/receipt.jpg" None []) (answering (OK PNone))
    = [mk_request "POST" "/w9s/" args] /\
    dict_get args "file_data" = Some (PStr "aGk=") /\
    dict_get args "file_name" = Some (PStr "receipt.jpg").
Proof.
  destruct (upload_sends_base64_of_file "/tmp/receipt.jpg" PNone (PBool false)
              None [] (answering (OK PNone)) receipt eq_refl)
    as [_ [_ [args [Hrq [Hdata Hname]]]]].
  exists args. split; [exact Hrq|]. split; [exact (Hdata eq_refl) | exact (Hname eq_refl)].
Defined.

(** Entries of [kwargs] named "file_data" or "file_name" replace the
    encoding of the file and the basename of its path. *)
Lemma kwargs_replace_file_data_and_name :
  ~ (forall rq,
        In rq (requests_of
                 (process_document "/tmp/receipt.jpg" PNone (PBool false)
                    [("file_data", PStr "QUJD"); ("file_name", PStr "scan.png")])
                 (answering (OK PNone))) ->
        dict_get (arguments rq) "file_data"
        = Some (PStr (string_of_list_byte (b64encode receipt))) \/
        dict_get (arguments rq) "file_name"
        = Some (PStr (basename "/tmp/receipt.jpg"))).
Proof.
  intros H. destruct (H _ (or_introl eq_refl)) as [H' | H']; discriminate H'.
Qed.

(** ** C6 *)

(** On a path that does not exist [process_document] dispatches nothing. *)
Lemma missing_file_dispatches_no_request :
  length (requests_of
            (sample_invoke
               (call_process_document "/tmp/missing.jpg" PNone (PBool false) []))
            (answering (OK PNone)))
  <> 1.
Proof. discriminate. Qed.

(** ** C7 *)

Lemma w9s_post_witness :
  requests_of (process_w9_document_url "https://cdn.example.com/w9.pdf" None [])
              (answering (OK PNone))
  = [mk_request "POST" "/w9s/"
       [ ("file_name", PStr "w9.pdf");
         ("file_url", PStr "https://cdn.example.com/w9.pdf") ]] /\
  (exists args,
      requests_of (process_w9_document "/tmp/receipt.jpg" None []) (answering (OK PNone))
      = [mk_request "POST" "/w9s/" args]).
Proof.
  pose proof (w9s_post_to_w9s_endpoint "https://cdn.example.com/w9.pdf"
                "/tmp/receipt.jpg" None [] (answering (OK PNone)) eq_refl)
    as [_ [_ Hdoc]].
  split; [reflexivity | exact (Hdoc receipt eq_refl)].
Defined.

(** ** C8 *)

Lemma process_document_categories_witness :
  exists rq,
    requests_of (process_document "/tmp/receipt.jpg" (PList []) (PBool false) [])
                (answering (OK PNone)) = [rq] /\
    dict_get (arguments rq) "categories" = Some (PList (map PStr CATEGORIES)).
Proof.
  destruct (process_document_categories "/tmp/receipt.jpg" (PList []) (PBool false)
              [] (answering (OK PNone)) receipt eq_refl eq_refl)
    as [rq [Hrq [_ [Hdefault _]]]].
  exists rq. split; [exact Hrq | exact (Hdefault (or_intror eq_refl))].
Defined.

(** ** C9 *)

Lemma get_documents_unwraps_witness :
  outcome_of
    (get_documents sample_repr PNone PNone PNone PNone PNone PNone PNone [])
    (answering (OK (PDict [("documents", PList [PInt 1; PInt 2])])))
  = OK (PList [PInt 1; PInt 2]).
Proof.
  refine (proj1 (get_documents_unwraps sample_repr
                   PNone PNone PNone PNone PNone PNone PNone []
                   (answering (OK (PDict [("documents", PList [PInt 1; PInt 2])])))
                   (PDict [("documents", PList [PInt 1; PInt 2])]) _)
                _ _ eq_refl eq_refl).
  intros rq _. reflexivity.
Defined.

(** A response that is not a mapping is not always returned as it is: on
    the list ["documents"] the membership test succeeds and the subscription
    raises, and on [None] the membership test itself raises. *)
Lemma get_documents_raises_on_non_mapping :
  ~ (forall r,
        In r [PList [PStr "documents"]; PNone] ->
        outcome_of
          (get_documents sample_repr PNone PNone PNone PNone PNone PNone PNone [])
          (answering (OK r))
        = OK r) /\
  outcome_of
    (get_documents sample_repr PNone PNone PNone PNone PNone PNone PNone [])
    (answering (OK (PList [PStr "documents"])))
  = Err TypeError /\
  outcome_of
    (get_documents sample_repr PNone PNone PNone PNone PNone PNone PNone [])
    (answering (OK PNone))
  = Err TypeError.
Proof.
  split; [|split; reflexivity].
  intros H. specialize (H _ (or_introl eq_refl)). discriminate H.
Qed.

(** ** C10 *)

Lemma upload_file_failure_witness :
  run (process_document "/tmp/missing.jpg" PNone (PBool false) [])
      (answering (OK PNone))
  = ([], Err (Raised "FileNotFoundError")) /\
  run (process_w9_document "/mnt/stale/receipt.jpg" None []) (answering (OK PNone))
  = ([], Err (Raised "OSError")).
Proof.
  split.
  - apply (upload_file_failure_sends_nothing "/tmp/missing.jpg" PNone (PBool false)
             None [] (answering (OK PNone)) (Raised "FileNotFoundError")).
    left. reflexivity.
  - apply (upload_file_failure_sends_nothing "/mnt/stale/receipt.jpg" PNone
             (PBool false) None [] (answering (OK PNone)) (Raised "OSError")).
    right. reflexivity.
Defined.

(** ** Further properties on concrete inputs *)

Lemma url_methods_keys_witness :
  map (fun rq => keys (arguments rq))
      (requests_of
         (process_document_url (PStr "https://cdn.example.com/receipt.jpg") PNone
            (PBool false) (PInt 0) PNone PNone PNone
            [("tags", PList [PStr "q3"]); ("boost_mode", PInt 1)])
         (answering (OK PNone)))
  = [["auto_delete"; "boost_mode"; "categories"; "external_id"; "file_url";
      "file_urls"; "max_pages_to_process"; "tags"]].
Proof.
  refine (proj1 (url_methods_send_named_then_new_keys
                   (PStr "https://cdn.example.com/receipt.jpg") PNone (PBool false)
                   (PInt 0) PNone PNone PNone "https://cdn.example.com/w9.pdf" None
                   [("tags", PList [PStr "q3"]); ("boost_mode", PInt 1)]
                   (answering (OK PNone)) _)).
  repeat constructor; cbn; intuition discriminate.
Defined.

Lemma uploads_keys_witness :
  map (fun rq => keys (arguments rq))
      (requests_of
         (process_document "/tmp/receipt.jpg" PNone (PBool false)
            [("external_id", PStr "r-17")])
         (answering (OK PNone)))
  = [["file_name"; "file_data"; "categories"; "auto_delete"; "external_id"]].
Proof.
  refine (proj1 (uploads_send_named_then_new_keys "/tmp/receipt.jpg" PNone
                   (PBool false) None [("external_id", PStr "r-17")]
                   (answering (OK PNone)) receipt eq_refl _)).
  repeat constructor; cbn; intuition discriminate.
Defined.

Lemma kwargs_precedence_witness :
  dict_get
    (get_documents_params PNone PNone PNone (PStr "2021-01-01") PNone PNone PNone
       [("created__gt", PStr "2022-02-02")])
    "created__gt"
  = Some (PStr "2022-02-02").
Proof.
  refine (proj2 (proj2 (proj2 (proj2
            (kwargs_entries_take_precedence "/tmp/receipt.jpg" PNone (PBool false)
               None PNone (PInt 0) PNone PNone PNone "https://cdn.example.com/w9.pdf"
               PNone PNone (PStr "2021-01-01") PNone PNone PNone
               [("created__gt", PStr "2022-02-02")] "created__gt"
               (PStr "2022-02-02") (answering (OK PNone)) _ eq_refl))))).
  repeat constructor; cbn; intuition discriminate.
Defined.

Lemma get_documents_query_order_witness :
  get_documents_params (PStr "invoice") PNone (PStr "q3") PNone PNone PNone PNone
    [("page", PInt 2); ("page_size", PInt 50)]
  = [("q", PStr "invoice"); ("tag", PStr "q3");
     ("page", PInt 2); ("page_size", PInt 50)].
Proof.
  refine (get_documents_query_order (PStr "invoice") PNone (PStr "q3") PNone PNone
            PNone PNone [("page", PInt 2); ("page_size", PInt 50)] _ _).
  - repeat constructor; cbn; intuition discriminate.
  - intros k [<- | [<- | []]]; reflexivity.
Defined.

Lemma get_documents_does_not_escape_witness :
  run (get_documents sample_repr (PStr "acme&tag=paid")
         PNone PNone PNone PNone PNone PNone [])
      (answering (OK (PList [])))
  = run (get_documents sample_repr (PStr "acme") PNone (PStr "paid")
           PNone PNone PNone PNone [])
        (answering (OK (PList []))).
Proof.
  apply (get_documents_does_not_escape sample_repr "acme" "paid"); discriminate.
Defined.

Lemma get_documents_list_witness :
  outcome_of
    (get_documents sample_repr PNone PNone PNone PNone PNone PNone PNone [])
    (answering (OK (PList [PDict [("id", PInt 7)]; PDict [("id", PInt 8)]])))
  = OK (PList [PDict [("id", PInt 7)]; PDict [("id", PInt 8)]]).
Proof.
  apply get_documents_returns_list_of_mappings; [reflexivity|].
  intros rq _. reflexivity.
Defined.

Lemma exceptions_come_from_outside_witness :
  raised_before_dispatch sample_model sample_model
    (call_add_line_item (PInt 7) [("total", PInt 3)]) (answering (OK PNone))
  = Some (Raised "ValidationError")
  \/ (exists rq,
         requests_of (sample_invoke (call_add_line_item (PInt 7) [("total", PInt 3)]))
                     (answering (OK PNone)) = [rq] /\
         respond (answering (OK PNone)) [] rq = Err (Raised "ValidationError"))
  \/ (exists rq r,
         requests_of (sample_invoke (call_add_line_item (PInt 7) [("total", PInt 3)]))
                     (answering (OK PNone)) = [rq] /\
         respond (answering (OK PNone)) [] rq = OK r /\
         returns_response (call_add_line_item (PInt 7) [("total", PInt 3)]) = false /\
         returns_nothing (call_add_line_item (PInt 7) [("total", PInt 3)]) = false /\
         is_dict r = false /\ Raised "ValidationError" = TypeError).
Proof.
  apply (exceptions_come_from_outside sample_repr sample_model sample_model).
  reflexivity.
Defined.

Lemma transport_exceptions_witness :
  outcome_of (sample_invoke (call_delete_document (PInt 7)))
             (answering (Err (Raised "VeryfiClientError")))
  = Err (Raised "VeryfiClientError").
Proof.
  apply (transport_exceptions_propagate sample_repr sample_model sample_model
           (call_delete_document (PInt 7))
           (answering (Err (Raised "VeryfiClientError")))
           (mk_request "DELETE" "/documents/7/" [("id", PInt 7)])).
  - left. reflexivity.
  - reflexivity.
Defined.

Lemma normal_return_witness :
  exists rq r,
    requests_of (sample_invoke (call_add_tag (PInt 7) (PStr "paid")))
                (answering (OK (PDict [("name", PStr "paid")]))) = [rq] /\
    respond (answering (OK (PDict [("name", PStr "paid")]))) [] rq = OK r /\
    raised_before_dispatch sample_model sample_model
      (call_add_tag (PInt 7) (PStr "paid"))
      (answering (OK (PDict [("name", PStr "paid")]))) = None.
Proof.
  apply (normal_return_means_one_answered_request sample_repr sample_model
           sample_model (call_add_tag (PInt 7) (PStr "paid"))
           (answering (OK (PDict [("name", PStr "paid")])))
           (PDict [("name", PStr "paid")])).
  reflexivity.
Defined.

Lemma file_data_determines_witness : receipt = receipt.
Proof.
  refine (proj1 (file_data_determines_file_contents "/tmp/receipt.jpg"
                   "/tmp/receipt.jpg" PNone (PBool false) None []
                   (answering (OK PNone)) receipt receipt eq_refl eq_refl eq_refl)
                _ _ (or_introl eq_refl) (or_introl eq_refl) eq_refl).
Defined.

Lemma file_data_length_witness :
  exists text,
    String.length text = 4 /\
    exists rq,
      requests_of (process_document "/tmp/receipt.jpg" PNone (PBool false) [])
                  (answering (OK PNone)) = [rq] /\
      dict_get (arguments rq) "file_data" = Some (PStr text).
Proof.
  destruct (file_data_length "/tmp/receipt.jpg" PNone (PBool false) None []
              (answering (OK PNone)) receipt eq_refl eq_refl)
    as [text [Hlen [Hdoc _]]].
  exists text. split; [exact Hlen | exact Hdoc].
Defined.


Lemma only_uploads_touch_files_witness :
  run (sample_invoke (call_process_document_url
                        (PStr "https://cdn.example.com/receipt.jpg") PNone
                        (PBool false) (PInt 0) PNone PNone PNone []))
      (mk_world (fun _ => Err (Raised "PermissionError"))
                (respond (answering (OK PNone))))
  = run (sample_invoke (call_process_document_url
                          (PStr "https://cdn.example.com/receipt.jpg") PNone
                          (PBool false) (PInt 0) PNone PNone PNone []))
        (answering (OK PNone)).
Proof.
  apply (only_uploads_touch_the_file_system sample_repr sample_model sample_model).
  reflexivity.
Defined.
